(** * The login flow of the DDG e-mail panel (src/pages/login.tsx)

    A shallow embedding of the two components [EnterUsername] and [EnterOtp]
    of the login page: the four jotai atoms, the event handlers, the promise
    chains attached to the three network calls, and the event loop that
    delivers user events and network settlements one task at a time. *)

From Stdlib Require Import String Ascii List Bool Arith ZArith Lia DecimalString.
Import ListNotations.
Local Open Scope string_scope.
Local Open Scope list_scope.

(** ** JavaScript strings and numbers

    A string is a sequence of code units; the model keeps the code units
    below 256, one [ascii] each. *)

(** The code units below 256 that [String.prototype.trim] strips: TAB, LF, VT,
    FF, CR, SPACE and NO-BREAK SPACE. *)
Definition isWhiteSpace (c : ascii) : bool :=
  existsb (Ascii.eqb c)
    ["009"%char; "010"%char; "011"%char; "012"%char; "013"%char; " "%char; "160"%char].

Fixpoint trimStart (s : string) : string :=
  match s with
  | EmptyString => EmptyString
  | String c s' => if isWhiteSpace c then trimStart s' else s
  end.

Fixpoint trimEnd (s : string) : string :=
  match s with
  | EmptyString => EmptyString
  | String c s' =>
      match trimEnd s' with
      | EmptyString => if isWhiteSpace c then EmptyString else String c EmptyString
      | r => String c r
      end
  end.

(** [otp.trim()] *)
Definition trim (s : string) : string := trimEnd (trimStart s).

Fixpoint onlyWhiteSpace (s : string) : bool :=
  match s with
  | EmptyString => true
  | String c s' => isWhiteSpace c && onlyWhiteSpace s'
  end.

(** An integer inside a template literal: [`${n}`]. *)
Definition numberToString (n : Z) : string := NilZero.string_of_int (Z.to_int n).

(** A property that may be [undefined]. *)
Definition truthyNumber (v : option Z) : bool :=
  match v with
  | Some n => negb (n =? 0)%Z
  | None => false
  end.

(** [v == n] for a number property that may be missing. *)
Definition equalsNumber (v : option Z) (n : Z) : bool :=
  match v with
  | Some m => (m =? n)%Z
  | None => false
  end.

(** [`${v}`] for a string property that may be missing. *)
Definition templateString (v : option string) : string :=
  match v with
  | Some s => s
  | None => "undefined"
  end.

(** [`${v}`] for a number property that may be missing. *)
Definition templateNumber (v : option Z) : string :=
  match v with
  | Some n => numberToString n
  | None => "undefined"
  end.

(** ** Data model *)

(** [stepAtom : atom<'EnterUsername' | 'EnterOtp'>] *)
Inductive Step : Type := EnterUsername | EnterOtp.

(** The [user] object of a successful login response. *)
Record User : Type := mkUser {
  access_token : string;
  cohort : string;
  email : string;
  username : string
}.

(** The object handed to [store.addAccount]: [{...user, remark, nextAlias}]. *)
Record AccountRecord : Type := mkAccount {
  account_user : User;
  remark : string;
  nextAlias : string
}.

(** The value a request promise rejects with. The handlers read three of its
    properties, [status], [statusText] and [message], each of which may be
    missing. *)
Record Rejection : Type := mkRejection {
  status : option Z;
  statusText : option string;
  message : option string
}.

(** The value the alias-generation promise fulfils with. *)
Record Address : Type := mkAddress { address : string }.

(** The value the login promise fulfils with. *)
Record LoginResponse : Type := mkLoginResponse { user : User }.

(** A promise chain waiting for its network call: which call it is, with the
    variables its callbacks close over. *)
Inductive Pending : Type :=
| OtpChain                   (* otpRequest(username).then.catch.finally *)
| LoginChain                 (* loginRequest(username, otp).then.catch.finally *)
| AliasChain (user : User).  (* generateAddresses(token).then.catch.finally *)

(** What the handlers do to the outside, in the order they do it. *)
Inductive Effect : Type :=
| PreventDefault
| SetUsername (value : string)
| SetOtp (value : string)
| SetLoading (value : bool)
| SetStep (value : Step)
| ToastError (msg : option string)
| ToastSuccess (msg : string)
| ConsoleLog (label : string) (res : Rejection)
| Fetch (url method : string) (body : list (string * string))
| GenerateAddresses (token : string)
| AddAccount (record : AccountRecord) (index : nat)
| RouterPush (url : string).

(** The effects that put a request on the network. *)
Definition isNetworkCall (e : Effect) : bool :=
  match e with
  | Fetch _ _ _ | GenerateAddresses _ => true
  | _ => false
  end.

Definition isAddAccount (e : Effect) : bool :=
  match e with AddAccount _ _ => true | _ => false end.

Definition isRouterPush (e : Effect) : bool :=
  match e with RouterPush _ => true | _ => false end.

Definition isSetLoading (e : Effect) : bool :=
  match e with SetLoading _ => true | _ => false end.

Definition isToastError (e : Effect) : bool :=
  match e with ToastError _ => true | _ => false end.

(** The modules the page imports whose code is not part of the page:
    the translation function [t], [USERNAME_REGEX] of lib/constants (through
    its [test] method), [maskEmail], and the account store with its
    [addAccount], which returns the index of the new account. *)
Class Collaborators : Type := {
  t : string -> string;
  USERNAME_REGEX_test : string -> bool;
  maskEmail : string -> string;
  Store : Type;
  addAccount : AccountRecord -> Store -> nat * Store
}.

Section Login.

Context {env : Collaborators}.

(** The four atoms, the promise chains in flight (oldest first) and the
    account store. *)
Record World : Type := mkWorld {
  usernameAtom : string;
  otpAtom : string;
  loadingAtom : bool;
  stepAtom : Step;
  inflight : list Pending;
  accounts : Store
}.

(** ** A state and output monad for the handlers *)

Definition M (A : Type) : Type := World -> A * World * list Effect.

Definition ret {A : Type} (a : A) : M A := fun w => (a, w, []).

Definition bind {A B : Type} (m : M A) (k : A -> M B) : M B :=
  fun w =>
    let '(a, w1, e1) := m w in
    let '(b, w2, e2) := k a w1 in
    (b, w2, e1 ++ e2).

Definition emit (e : Effect) : M unit := fun w => (tt, w, [e]).

Definition get : M World := fun w => (w, w, []).

Definition modify (f : World -> World) : M unit := fun w => (tt, f w, []).

End Login.

Declare Scope handler_scope.
Delimit Scope handler_scope with handler.
Notation "x <- m ;; k" := (bind m (fun x => k))
  (at level 61, m at next level, right associativity) : handler_scope.
Notation "m ;; k" := (bind m (fun _ => k))
  (at level 61, right associativity) : handler_scope.

Section Handlers.

Context {env : Collaborators}.
Local Open Scope handler_scope.

Definition setUsername (v : string) : M unit :=
  modify (fun w => mkWorld v (otpAtom w) (loadingAtom w) (stepAtom w) (inflight w) (accounts w)) ;;
  emit (SetUsername v).

Definition setOtp (v : string) : M unit :=
  modify (fun w => mkWorld (usernameAtom w) v (loadingAtom w) (stepAtom w) (inflight w) (accounts w)) ;;
  emit (SetOtp v).

Definition setLoading (v : bool) : M unit :=
  modify (fun w => mkWorld (usernameAtom w) (otpAtom w) v (stepAtom w) (inflight w) (accounts w)) ;;
  emit (SetLoading v).

Definition setStep (v : Step) : M unit :=
  modify (fun w => mkWorld (usernameAtom w) (otpAtom w) (loadingAtom w) v (inflight w) (accounts w)) ;;
  emit (SetStep v).

(** The promise of a call that has just been issued gets its chain; the chain
    waits with the others for the call to settle. *)
Definition attach (p : Pending) : M unit :=
  modify (fun w => mkWorld (usernameAtom w) (otpAtom w) (loadingAtom w) (stepAtom w)
                           (inflight w ++ [p]) (accounts w)).

(** The two requests go through [fetch] of utils/fetch, which is not part of
    the page: a request takes the path, the method and the body (here the
    object given to [JSON.stringify], key by key) and gives a promise that
    settles in a later task.

    [fetch('/api/auth/loginlink', {method: 'POST', body: JSON.stringify({username})})] *)
Definition otpRequest (username : string) : M unit :=
  emit (Fetch "/api/auth/loginlink" "POST" [("username", username)]).

(** [fetch('/api/auth/login', {method: 'POST', body: JSON.stringify({username, otp})})] *)
Definition loginRequest (username otp : string) : M unit :=
  emit (Fetch "/api/auth/login" "POST" [("username", username); ("otp", otp)]).

(** Modelled from the spec: [generateAddresses] of utils/generateAddresses,
    which is not part of the page. The spec gives it as the alias-generation
    call, a request that takes the access credential of the login response and
    either succeeds with an address or fails; like the two requests above, its
    promise settles in a later task. *)
Definition generateAddresses (token : string) : M unit :=
  emit (GenerateAddresses token).

(** [store.addAccount(record)] *)
Definition store_addAccount (record : AccountRecord) : M nat :=
  fun w =>
    let r := addAccount record (accounts w) in
    (fst r,
     mkWorld (usernameAtom w) (otpAtom w) (loadingAtom w) (stepAtom w) (inflight w) (snd r),
     [AddAccount record (fst r)]).

(** [p.then(onFulfilled).catch(onRejected).finally(onFinally)], once [p] has
    settled with [r], for callbacks that return nothing and do not throw: the
    promise of [then] is fulfilled as soon as [onFulfilled] returns, [catch]
    passes it on, and [onFinally] runs next, in the same task. *)
Definition settle {V : Type} (r : V + Rejection)
    (onFulfilled : V -> M unit) (onRejected : Rejection -> M unit)
    (onFinally : M unit) : M unit :=
  match r with
  | inl v => onFulfilled v
  | inr res => onRejected res
  end ;;
  onFinally.

End Handlers.

(** ** The component [EnterUsername] *)

Module EnterUsername.
Section Component.

Context {env : Collaborators}.
Local Open Scope handler_scope.

Definition usernameHandleChange (value : string) : M unit :=
  setUsername value.

(** The form's [onSubmit]. *)
Definition continueHandle : M unit :=
  emit PreventDefault ;;
  w <- get ;;
  let username := usernameAtom w in
  if (username =? "")%string then
    emit (ToastError (Some (t "Duck Address cannot be empty")))
  else if negb (USERNAME_REGEX_test username) then
    emit (ToastError (Some (t "Duck Address can only contain letters and numbers")))
  else
    setLoading true ;;
    otpRequest username ;;
    attach OtpChain.

(** [.then(() => { setStep('EnterOtp') })] *)
Definition onFulfilled (_ : unit) : M unit :=
  setStep EnterOtp.

(** [.catch((res) => { ... })] *)
Definition onRejected (res : Rejection) : M unit :=
  emit (ConsoleLog "send login link error" res) ;;
  if truthyNumber (status res) then
    emit (ToastError
            (Some (templateNumber (status res) ++ " - " ++ templateString (statusText res))%string))
  else
    emit (ToastError (Some (templateString (message res)))).

(** [.finally(() => setLoading(false))] *)
Definition onFinally : M unit :=
  setLoading false.

End Component.
End EnterUsername.

(** ** The component [EnterOtp] *)

Module EnterOtp.
Section Component.

Context {env : Collaborators}.
Local Open Scope handler_scope.

Definition otpHandleChange (value : string) : M unit :=
  setOtp value.

(** The form's [onSubmit]. *)
Definition continueHandle : M unit :=
  emit PreventDefault ;;
  w <- get ;;
  let username := usernameAtom w in
  let otp := otpAtom w in
  if (otp =? "")%string then
    emit (ToastError (Some (t "One-time Passphrase cannot be empty")))
  else
    setLoading true ;;
    loginRequest username (trim otp) ;;
    attach LoginChain.

(** The account the two callbacks of the alias chain hand to the store. *)
Definition account (user : User) (nextAlias : string) : AccountRecord :=
  mkAccount user (maskEmail (email user)) nextAlias.

(** [router.push(`/email/?id=${userIndex}`)] *)
Definition router_push_email (userIndex : nat) : M unit :=
  emit (RouterPush ("/email/?id=" ++ numberToString (Z.of_nat userIndex))%string).

(** The alias chain: [.then((res) => { ... })] *)
Definition aliasFulfilled (user : User) (res : Address) : M unit :=
  userIndex <- store_addAccount (account user (address res)) ;;
  router_push_email userIndex.

(** The alias chain: [.catch((res) => { ... })] *)
Definition aliasRejected (user : User) (res : Rejection) : M unit :=
  emit (ConsoleLog "generate alias error" res) ;;
  userIndex <- store_addAccount (account user "") ;;
  router_push_email userIndex.

(** The alias chain: [.finally(() => { toast.success(t('Login Success')) })] *)
Definition aliasFinally : M unit :=
  emit (ToastSuccess (t "Login Success")).

(** The login chain: [.then((res) => { ... })]. The callback issues the alias
    call, attaches the alias chain to it and returns; the alias chain is not
    returned to the login chain. *)
Definition onFulfilled (res : LoginResponse) : M unit :=
  let user := user res in
  generateAddresses (access_token user) ;;
  attach (AliasChain user).

(** The login chain: [.catch((res) => { ... })] *)
Definition onRejected (res : Rejection) : M unit :=
  emit (ConsoleLog "login error" res) ;;
  if truthyNumber (status res) then
    if equalsNumber (status res) 401 then
      emit (ToastError (Some (t "Unauthorized")))
    else
      emit (ToastError
              (Some (templateNumber (status res) ++ " - " ++ templateString (statusText res))%string))
  else
    emit (ToastError (message res)).

(** The login chain: [.finally(() => setLoading(false))] *)
Definition onFinally : M unit :=
  setLoading false.

(** The [onClick] of the Back button. *)
Definition backHandle : M unit :=
  setOtp "" ;;
  setStep EnterUsername.

End Component.
End EnterOtp.

(** ** The event loop

    One task at a time: a user event on the component that is rendered, or the
    settlement of one of the network calls in flight, whose chain then runs to
    its end before the next task. *)

Inductive Settlement : Type :=
| OtpSettled (r : unit + Rejection)
| LoginSettled (r : LoginResponse + Rejection)
| AliasSettled (r : Address + Rejection).

Inductive Action : Type :=
| UsernameChange (value : string)
| SubmitUsername
| OtpChange (value : string)
| SubmitOtp
| Back
| Settle (i : nat) (s : Settlement).

Section EventLoop.

Context {env : Collaborators}.

(** The callbacks of a chain, for a settlement of its own call. *)
Definition resume (p : Pending) (s : Settlement) : option (M unit) :=
  match p, s with
  | OtpChain, OtpSettled r =>
      Some (settle r EnterUsername.onFulfilled EnterUsername.onRejected
              EnterUsername.onFinally)
  | LoginChain, LoginSettled r =>
      Some (settle r EnterOtp.onFulfilled EnterOtp.onRejected EnterOtp.onFinally)
  | AliasChain user, AliasSettled r =>
      Some (settle r (EnterOtp.aliasFulfilled user) (EnterOtp.aliasRejected user)
              EnterOtp.aliasFinally)
  | _, _ => None
  end.

Fixpoint remove_nth {A : Type} (i : nat) (l : list A) : list A :=
  match i, l with
  | _, [] => []
  | O, _ :: l' => l'
  | S i', x :: l' => x :: remove_nth i' l'
  end.

Definition exec (m : M unit) (w : World) : World * list Effect :=
  let '(_, w', es) := m w in (w', es).

Definition settled (i : nat) (w : World) : World :=
  mkWorld (usernameAtom w) (otpAtom w) (loadingAtom w) (stepAtom w)
          (remove_nth i (inflight w)) (accounts w).

Definition isEnterUsername (s : Step) : bool :=
  match s with EnterUsername => true | EnterOtp => false end.

(** [LoginPage] renders [EnterUsername] or [EnterOtp] by [stepAtom]; the submit
    button of the rendered form is disabled while [loadingAtom] holds. *)
Definition step (a : Action) (w : World) : option (World * list Effect) :=
  match a with
  | UsernameChange v =>
      if isEnterUsername (stepAtom w)
      then Some (exec (EnterUsername.usernameHandleChange v) w) else None
  | SubmitUsername =>
      if isEnterUsername (stepAtom w) && negb (loadingAtom w)
      then Some (exec EnterUsername.continueHandle w) else None
  | OtpChange v =>
      if isEnterUsername (stepAtom w)
      then None else Some (exec (EnterOtp.otpHandleChange v) w)
  | SubmitOtp =>
      if negb (isEnterUsername (stepAtom w)) && negb (loadingAtom w)
      then Some (exec EnterOtp.continueHandle w) else None
  | Back =>
      if isEnterUsername (stepAtom w)
      then None else Some (exec EnterOtp.backHandle w)
  | Settle i s =>
      match nth_error (inflight w) i with
      | Some p =>
          match resume p s with
          | Some m => Some (exec m (settled i w))
          | None => None
          end
      | None => None
      end
  end.

(** A sequence of tasks, with the effects of all of them. *)
Fixpoint run (acts : list Action) (w : World) : option (World * list Effect) :=
  match acts with
  | [] => Some (w, [])
  | a :: acts' =>
      match step a w with
      | Some (w1, e1) =>
          match run acts' w1 with
          | Some (w2, e2) => Some (w2, e1 ++ e2)
          | None => None
          end
      | None => None
      end
  end.

(** A fresh load of the page. *)
Definition initial (s : Store) : World :=
  mkWorld "" "" false EnterUsername [] s.

End EventLoop.

(** ** The identifier pattern and a sample set of collaborators *)

Definition isLetterOrDigit (c : ascii) : bool :=
  let n := nat_of_ascii c in
  (((48 <=? n) && (n <=? 57)) || ((65 <=? n) && (n <=? 90))
   || ((97 <=? n) && (n <=? 122)))%nat.

Fixpoint onlyLettersDigits (s : string) : bool :=
  match s with
  | EmptyString => true
  | String c s' => isLetterOrDigit c && onlyLettersDigits s'
  end.

(** Modelled from the spec: [USERNAME_REGEX] of lib/constants, which is not
    part of the page. The spec gives the identifier as letters and digits only
    and non-empty, and [test] as rejecting anything outside the allowed
    letters/digits pattern: one or more letters or digits from the start of the
    string to its end. *)
Definition USERNAME_REGEX_spec (s : string) : bool :=
  match s with
  | EmptyString => false
  | String _ _ => onlyLettersDigits s
  end.

(** A stand-in for [maskEmail]: the first character and three stars. *)
Definition sample_maskEmail (e : string) : string :=
  (substring 0 1 e ++ "***")%string.

(** A stand-in for the account store: the list of accounts, a new account
    going to the end and its position being its index. *)
Definition sample_addAccount (r : AccountRecord) (s : list AccountRecord)
    : nat * list AccountRecord :=
  (length s, s ++ [r]).

Definition sample : Collaborators := {|
  t := fun key => key;
  USERNAME_REGEX_test := USERNAME_REGEX_spec;
  maskEmail := sample_maskEmail;
  Store := list AccountRecord;
  addAccount := sample_addAccount
|}.

Definition alice : User := mkUser "tok" "c1" "alice1@duck.com" "alice1".

(** The scenario of the spec: identifier [alice1], the passphrase typed with
    blanks around it, both requests succeeding. *)
Definition alice_logs_in : list Action :=
  [ UsernameChange "alice1"; SubmitUsername; Settle 0 (OtpSettled (inl tt));
    OtpChange " 123456 "; SubmitOtp;
    Settle 0 (LoginSettled (inl (mkLoginResponse alice))) ].

(** The chain of a request, and the settlement of that request with a failure. *)
Definition requestChain (login : bool) : Pending :=
  if login then LoginChain else OtpChain.

Definition requestFailed (login : bool) (res : Rejection) : Settlement :=
  if login then LoginSettled (inr res) else OtpSettled (inr res).

Section Samples.

#[local] Existing Instance sample.

(** The page just before the login request of the scenario settles. *)
Definition alice_waits_for_login : World :=
  mkWorld "alice1" " 123456 " true EnterOtp [LoginChain] [].

(** A page on the passphrase step with a passphrase of one blank. *)
Definition blank_otp : World :=
  mkWorld "alice1" " " false EnterOtp [] [].

(** A page with the OTP request of [alice1] in flight. *)
Definition alice_waits_for_otp : World :=
  mkWorld "alice1" "" true EnterUsername [OtpChain] [].

(** A page on the identifier step with an identifier the pattern rejects. *)
Definition bad_identifier : World :=
  mkWorld "alice 1!" "" false EnterUsername [] [].

(** A page on the identifier step with the identifier of the scenario typed. *)
Definition alice_typed : World :=
  mkWorld "alice1" "" false EnterUsername [] [].

(** A page on the passphrase step, nothing typed yet. *)
Definition alice_on_otp_step : World :=
  mkWorld "alice1" "" false EnterOtp [] [].

Definition server_error : Rejection :=
  mkRejection (Some 500%Z) (Some "Server Error") None.

End Samples.

(** ** Pages that can be reached *)

Section Reachable.

Context {env : Collaborators}.

(** The pages a fresh load can get to, task by task. *)
Inductive reachable : World -> Prop :=
| reachable_initial (s : Store) : reachable (initial s)
| reachable_step (a : Action) (w w' : World) (es : list Effect) :
    reachable w -> step a w = Some (w', es) -> reachable w'.

(** The chains of the two requests a form sends, as against the alias chain. *)
Definition isRequestChain (p : Pending) : bool :=
  match p with
  | OtpChain | LoginChain => true
  | AliasChain _ => false
  end.

Definition requestsInFlight (w : World) : nat :=
  length (filter isRequestChain (inflight w)).

End Reachable.

(** ** White space at the ends of a string *)

Definition startsWithWhiteSpace (s : string) : bool :=
  match s with
  | EmptyString => false
  | String c _ => isWhiteSpace c
  end.

Fixpoint endsWithWhiteSpace (s : string) : bool :=
  match s with
  | EmptyString => false
  | String c EmptyString => isWhiteSpace c
  | String _ s' => endsWithWhiteSpace s'
  end.

Section MoreSamples.

#[local] Existing Instance sample.

(** A fresh load with no account stored. *)
Definition fresh_page : World := initial [].

(** The page with the alias call of the scenario out. *)
Definition alice_waits_for_alias : World :=
  mkWorld "alice1" " 123456 " false EnterOtp [AliasChain alice] [].

(** A page on the passphrase step with the passphrase typed without blanks. *)
Definition alice_typed_otp : World :=
  mkWorld "alice1" "123456" false EnterOtp [] [].

(** The scenario up to the submission of the passphrase. *)
Definition alice_submits_otp : list Action :=
  [ UsernameChange "alice1"; SubmitUsername; Settle 0 (OtpSettled (inl tt));
    OtpChange " 123456 "; SubmitOtp ].

End MoreSamples.

(** * Properties *)

Section Properties.

Context {env : Collaborators}.

(** ** Running one task *)

Lemma step_settle_inv (w w' : World) (i : nat) (s : Settlement) (es : list Effect) :
  step (Settle i s) w = Some (w', es) ->
  exists p m,
    nth_error (inflight w) i = Some p /\ resume p s = Some m
    /\ exec m (settled i w) = (w', es).
Proof.
  unfold step. destruct (nth_error (inflight w) i) as [p|]; [|discriminate].
  destruct (resume p s) as [m|] eqn:Hm; [|discriminate].
  intros H. exists p, m. injection H as H. auto.
Qed.

(** ** The login chain *)

Lemma login_fulfilled (w : World) (i : nat) (res : LoginResponse) :
  nth_error (inflight w) i = Some LoginChain ->
  step (Settle i (LoginSettled (inl res))) w
  = Some (mkWorld (usernameAtom w) (otpAtom w) false (stepAtom w)
            (remove_nth i (inflight w) ++ [AliasChain (user res)]) (accounts w),
          [GenerateAddresses (access_token (user res)); SetLoading false]).
Proof.
  intros H. unfold step. rewrite H. reflexivity.
Qed.

Lemma alias_settled (w : World) (j : nat) (u : User) (r : Address + Rejection) :
  nth_error (inflight w) j = Some (AliasChain u) ->
  let record :=
    mkAccount u (maskEmail (email u))
      (match r with inl a => address a | inr _ => "" end) in
  let index := fst (addAccount record (accounts w)) in
  step (Settle j (AliasSettled r)) w
  = Some (mkWorld (usernameAtom w) (otpAtom w) (loadingAtom w) (stepAtom w)
            (remove_nth j (inflight w)) (snd (addAccount record (accounts w))),
          match r with
          | inl _ => []
          | inr res => [ConsoleLog "generate alias error" res]
          end
          ++ [AddAccount record index;
              RouterPush ("/email/?id=" ++ numberToString (Z.of_nat index))%string;
              ToastSuccess (t "Login Success")]).
Proof.
  intros H. cbv zeta.
  unfold step. rewrite H.
  destruct r as [a | res]; reflexivity.
Qed.

(** C1: a successful login issues the alias call and touches neither the store
    nor the router; whenever that alias call settles, the store is called once,
    with an account whose [nextAlias] is the returned address if the call
    succeeded and the empty string if it failed, and the router is called once,
    with the index the store returned. *)
Theorem login_success_persists_one_account :
  forall (w : World) (i : nat) (res : LoginResponse),
    nth_error (inflight w) i = Some LoginChain ->
    exists (w1 : World) (e1 : list Effect),
      step (Settle i (LoginSettled (inl res))) w = Some (w1, e1)
      /\ filter isAddAccount e1 = [] /\ filter isRouterPush e1 = []
      /\ accounts w1 = accounts w
      /\ filter isNetworkCall e1 = [GenerateAddresses (access_token (user res))]
      /\ inflight w1 = remove_nth i (inflight w) ++ [AliasChain (user res)]
      /\ forall (w' : World) (j : nat) (r : Address + Rejection),
           nth_error (inflight w') j = Some (AliasChain (user res)) ->
           let alias := match r with inl a => address a | inr _ => "" end in
           let record := mkAccount (user res) (maskEmail (email (user res))) alias in
           let index := fst (addAccount record (accounts w')) in
           exists (w2 : World) (e2 : list Effect),
             step (Settle j (AliasSettled r)) w' = Some (w2, e2)
             /\ filter isAddAccount e2 = [AddAccount record index]
             /\ accounts w2 = snd (addAccount record (accounts w'))
             /\ filter isRouterPush e2
                = [RouterPush ("/email/?id=" ++ numberToString (Z.of_nat index))%string].
Proof.
  intros w i res H.
  eexists. eexists. split; [exact (login_fulfilled w i res H)|].
  cbn. repeat split.
  intros w' j r Hj. cbv zeta.
  eexists. eexists. split; [exact (alias_settled w' j (user res) r Hj)|].
  destruct r; cbn; repeat split.
Qed.

(** The busy flag is cleared in the task in which the login request succeeds,
    the task that issues the alias call: the alias chain is still in flight
    when the flag goes down. *)
Lemma login_fulfilled_clears_busy_first (w : World) (i : nat) (res : LoginResponse) :
  nth_error (inflight w) i = Some LoginChain ->
  exists (w1 : World),
    step (Settle i (LoginSettled (inl res))) w
    = Some (w1, [GenerateAddresses (access_token (user res)); SetLoading false])
    /\ loadingAtom w1 = false
    /\ In (AliasChain (user res)) (inflight w1).
Proof.
  intros H. eexists. split; [exact (login_fulfilled w i res H)|].
  cbn. split; [reflexivity|]. apply in_or_app. right. left. reflexivity.
Qed.

Lemma login_rejected (w : World) (i : nat) (res : Rejection) :
  nth_error (inflight w) i = Some LoginChain ->
  step (Settle i (LoginSettled (inr res))) w
  = Some (mkWorld (usernameAtom w) (otpAtom w) false (stepAtom w)
            (remove_nth i (inflight w)) (accounts w),
          [ConsoleLog "login error" res;
           ToastError
             (if truthyNumber (status res) then
                if equalsNumber (status res) 401 then Some (t "Unauthorized")
                else Some (templateNumber (status res) ++ " - "
                           ++ templateString (statusText res))%string
              else message res);
           SetLoading false]).
Proof.
  intros H. unfold step. rewrite H. cbn.
  unfold exec, settle, EnterOtp.onRejected, EnterOtp.onFinally.
  destruct (truthyNumber (status res)); [destruct (equalsNumber (status res) 401)|];
    reflexivity.
Qed.

(** ** The passphrase form *)

Lemma submitOtp_empty (w : World) :
  otpAtom w = "" ->
  exec EnterOtp.continueHandle w
  = (w, [PreventDefault; ToastError (Some (t "One-time Passphrase cannot be empty"))]).
Proof.
  intros H. unfold exec, EnterOtp.continueHandle, bind, get, emit. cbn.
  rewrite H. cbn. reflexivity.
Qed.

Lemma submitOtp_nonempty (w : World) :
  otpAtom w <> "" ->
  exec EnterOtp.continueHandle w
  = (mkWorld (usernameAtom w) (otpAtom w) true (stepAtom w)
       (inflight w ++ [LoginChain]) (accounts w),
     [PreventDefault; SetLoading true;
      Fetch "/api/auth/login" "POST"
        [("username", usernameAtom w); ("otp", trim (otpAtom w))]]).
Proof.
  intros H. unfold exec, EnterOtp.continueHandle, bind, get, emit. cbn.
  destruct (String.eqb_spec (otpAtom w) ""); [contradiction|]. reflexivity.
Qed.

Lemma trim_onlyWhiteSpace (s : string) :
  onlyWhiteSpace s = true -> trim s = "".
Proof.
  unfold trim. induction s as [|c s IH]; cbn; intros H.
  - reflexivity.
  - apply andb_true_iff in H as [Hc Hs]. rewrite Hc. exact (IH Hs).
Qed.

Example trim_inner_blank_kept : trim "  12 34  " = "12 34".
Proof. reflexivity. Qed.

(** A passphrase of white space only passes the test for the empty string and
    is sent as the empty string. *)
Lemma submitOtp_onlyWhiteSpace (w : World) :
  otpAtom w <> "" ->
  onlyWhiteSpace (otpAtom w) = true ->
  exec EnterOtp.continueHandle w
  = (mkWorld (usernameAtom w) (otpAtom w) true (stepAtom w)
       (inflight w ++ [LoginChain]) (accounts w),
     [PreventDefault; SetLoading true;
      Fetch "/api/auth/login" "POST" [("username", usernameAtom w); ("otp", "")]]).
Proof.
  intros Hne Hws. rewrite (submitOtp_nonempty w Hne), (trim_onlyWhiteSpace _ Hws).
  reflexivity.
Qed.

(** ** The request chains on failure *)

Lemma otp_rejected (w : World) (i : nat) (res : Rejection) :
  nth_error (inflight w) i = Some OtpChain ->
  step (Settle i (OtpSettled (inr res))) w
  = Some (mkWorld (usernameAtom w) (otpAtom w) false (stepAtom w)
            (remove_nth i (inflight w)) (accounts w),
          [ConsoleLog "send login link error" res;
           ToastError
             (if truthyNumber (status res) then
                Some (templateNumber (status res) ++ " - "
                      ++ templateString (statusText res))%string
              else Some (templateString (message res)));
           SetLoading false]).
Proof.
  intros H. unfold step. rewrite H. cbn.
  unfold exec, settle, EnterUsername.onRejected, EnterUsername.onFinally.
  destruct (truthyNumber (status res)); reflexivity.
Qed.

(** C4: when the OTP request ([login = false]) or the login request
    ([login = true]) fails, the step is left as it is and the busy flag ends
    false; the one message shown is "Unauthorized" (translated) for a login
    failure with status 401, "<status> - <statusText>" for any other status
    code, and the transport message when there is no status. *)
Theorem failed_request_message :
  forall (w : World) (i : nat) (login : bool) (res : Rejection),
    nth_error (inflight w) i = Some (requestChain login) ->
    exists (w' : World) (es : list Effect),
      step (Settle i (requestFailed login res)) w = Some (w', es)
      /\ stepAtom w' = stepAtom w
      /\ loadingAtom w' = false
      /\ filter isNetworkCall es = []
      /\ (login = true -> status res = Some 401%Z ->
          filter isToastError es = [ToastError (Some (t "Unauthorized"))])
      /\ (forall (n : Z) (txt : string),
            status res = Some n -> n <> 0%Z -> (login = true -> n <> 401%Z) ->
            statusText res = Some txt ->
            filter isToastError es
            = [ToastError (Some (numberToString n ++ " - " ++ txt)%string)])
      /\ (forall m : string,
            status res = None -> message res = Some m ->
            filter isToastError es = [ToastError (Some m)]).
Proof.
  intros w i login res H. destruct login; cbn in H |- *.
  - eexists. eexists. split; [exact (login_rejected w i res H)|].
    cbn. repeat split.
    + intros _ Hs. rewrite Hs. reflexivity.
    + intros n txt Hs Hn0 Hn401 Htxt. rewrite Hs, Htxt. cbn.
      destruct (Z.eqb_spec n 0); [contradiction|].
      destruct (Z.eqb_spec n 401); [elim (Hn401 eq_refl); assumption|]. reflexivity.
    + intros m Hs Hm. rewrite Hs, Hm. reflexivity.
  - eexists. eexists. split; [exact (otp_rejected w i res H)|].
    cbn. repeat split.
    + discriminate.
    + intros n txt Hs Hn0 _ Htxt. rewrite Hs, Htxt. cbn.
      destruct (Z.eqb_spec n 0); [contradiction|]. reflexivity.
    + intros m Hs Hm. rewrite Hs, Hm. reflexivity.
Qed.

(** ** The identifier form *)

Lemma submitUsername_empty (w : World) :
  usernameAtom w = "" ->
  exec EnterUsername.continueHandle w
  = (w, [PreventDefault; ToastError (Some (t "Duck Address cannot be empty"))]).
Proof.
  intros H. unfold exec, EnterUsername.continueHandle, bind, get, emit. cbn.
  rewrite H. cbn. reflexivity.
Qed.

Lemma submitUsername_rejected (w : World) :
  usernameAtom w <> "" ->
  USERNAME_REGEX_test (usernameAtom w) = false ->
  exec EnterUsername.continueHandle w
  = (w, [PreventDefault;
         ToastError (Some (t "Duck Address can only contain letters and numbers"))]).
Proof.
  intros Hne Hre. unfold exec, EnterUsername.continueHandle, bind, get, emit. cbn.
  destruct (String.eqb_spec (usernameAtom w) ""); [contradiction|].
  rewrite Hre. cbn. reflexivity.
Qed.

Lemma submitUsername_accepted (w : World) :
  usernameAtom w <> "" ->
  USERNAME_REGEX_test (usernameAtom w) = true ->
  exec EnterUsername.continueHandle w
  = (mkWorld (usernameAtom w) (otpAtom w) true (stepAtom w)
       (inflight w ++ [OtpChain]) (accounts w),
     [PreventDefault; SetLoading true;
      Fetch "/api/auth/loginlink" "POST" [("username", usernameAtom w)]]).
Proof.
  intros Hne Hre. unfold exec, EnterUsername.continueHandle, bind, get, emit. cbn.
  destruct (String.eqb_spec (usernameAtom w) ""); [contradiction|].
  rewrite Hre. reflexivity.
Qed.

Lemma otp_fulfilled (w : World) (i : nat) (r : unit) :
  nth_error (inflight w) i = Some OtpChain ->
  step (Settle i (OtpSettled (inl r))) w
  = Some (mkWorld (usernameAtom w) (otpAtom w) false EnterOtp
            (remove_nth i (inflight w)) (accounts w),
          [SetStep EnterOtp; SetLoading false]).
Proof.
  intros H. unfold step. rewrite H. reflexivity.
Qed.

(** The pattern as the spec gives it, character by character. *)
Lemma onlyLettersDigits_forall (s : string) :
  (forall c, In c (list_ascii_of_string s) -> isLetterOrDigit c = true) ->
  onlyLettersDigits s = true.
Proof.
  induction s as [|a s IH]; intros H; cbn.
  - reflexivity.
  - rewrite (H a (or_introl eq_refl)). cbn. apply IH.
    intros c Hc. apply H. right. exact Hc.
Qed.

Lemma onlyLettersDigits_exists (s : string) (c : ascii) :
  In c (list_ascii_of_string s) -> isLetterOrDigit c = false ->
  onlyLettersDigits s = false.
Proof.
  induction s as [|a s IH]; cbn; intros Hin Hc.
  - contradiction.
  - destruct Hin as [-> | Hin].
    + rewrite Hc. reflexivity.
    + rewrite (IH Hin Hc). apply andb_false_r.
Qed.

Lemma USERNAME_REGEX_spec_nonempty (s : string) :
  s <> "" -> USERNAME_REGEX_spec s = onlyLettersDigits s.
Proof.
  destruct s; [contradiction|reflexivity].
Qed.

(** C6: with the pattern the spec describes, submitting the identifier form
    shows the empty-input reason for the empty identifier, the
    invalid-characters reason for an identifier with a character that is
    neither a letter nor a digit, and passes every non-empty identifier of
    letters and digits on to the OTP request. *)
Theorem identifier_validation :
  (forall s : string, USERNAME_REGEX_test s = USERNAME_REGEX_spec s) ->
  forall w : World,
    (usernameAtom w = "" ->
     exec EnterUsername.continueHandle w
     = (w, [PreventDefault; ToastError (Some (t "Duck Address cannot be empty"))]))
    /\ ((exists c : ascii,
           In c (list_ascii_of_string (usernameAtom w)) /\ isLetterOrDigit c = false) ->
        exec EnterUsername.continueHandle w
        = (w, [PreventDefault;
               ToastError (Some (t "Duck Address can only contain letters and numbers"))]))
    /\ (usernameAtom w <> "" ->
        (forall c : ascii,
           In c (list_ascii_of_string (usernameAtom w)) -> isLetterOrDigit c = true) ->
        exec EnterUsername.continueHandle w
        = (mkWorld (usernameAtom w) (otpAtom w) true (stepAtom w)
             (inflight w ++ [OtpChain]) (accounts w),
           [PreventDefault; SetLoading true;
            Fetch "/api/auth/loginlink" "POST" [("username", usernameAtom w)]])).
Proof.
  intros Hre w. split; [|split].
  - apply submitUsername_empty.
  - intros (c & Hin & Hc).
    assert (Hne : usernameAtom w <> "").
    { intros E. rewrite E in Hin. exact Hin. }
    apply submitUsername_rejected; [exact Hne|].
    rewrite Hre, (USERNAME_REGEX_spec_nonempty _ Hne).
    exact (onlyLettersDigits_exists _ c Hin Hc).
  - intros Hne Hall.
    apply submitUsername_accepted; [exact Hne|].
    rewrite Hre, (USERNAME_REGEX_spec_nonempty _ Hne).
    exact (onlyLettersDigits_forall _ Hall).
Qed.

(** C7: submitting an identifier that is empty or that the pattern rejects
    puts nothing on the network, shows the reason, and leaves the page as it
    was: still on the identifier step, the busy flag never set. *)
Theorem invalid_identifier_issues_no_call :
  forall w : World,
    stepAtom w = EnterUsername -> loadingAtom w = false ->
    usernameAtom w = "" \/ USERNAME_REGEX_test (usernameAtom w) = false ->
    exists (w' : World) (es : list Effect),
      step SubmitUsername w = Some (w', es)
      /\ filter isNetworkCall es = []
      /\ inflight w' = inflight w
      /\ filter isToastError es
         = [ToastError
              (Some (t (if (usernameAtom w =? "")%string
                        then "Duck Address cannot be empty"
                        else "Duck Address can only contain letters and numbers")))]
      /\ stepAtom w' = EnterUsername
      /\ filter isSetLoading es = []
      /\ loadingAtom w' = false
      /\ w' = w.
Proof.
  intros w Hstep Hload Hbad.
  unfold step. rewrite Hstep, Hload. cbn [isEnterUsername negb andb].
  destruct (String.eqb_spec (usernameAtom w) "") as [He | Hne].
  - rewrite (submitUsername_empty w He).
    eexists. eexists. split; [reflexivity|]. cbn. auto 10.
  - destruct Hbad as [He | Hre]; [contradiction|].
    rewrite (submitUsername_rejected w Hne Hre).
    eexists. eexists. split; [reflexivity|]. cbn. auto 10.
Qed.

(** C8: submitting an identifier that passes validation issues the OTP
    request and leaves its chain in flight; when that request succeeds, the
    step is [EnterOtp] and the busy flag is false. *)
Theorem otp_request_success_advances :
  forall w : World,
    stepAtom w = EnterUsername -> loadingAtom w = false ->
    usernameAtom w <> "" -> USERNAME_REGEX_test (usernameAtom w) = true ->
    exists (w1 : World) (e1 : list Effect),
      step SubmitUsername w = Some (w1, e1)
      /\ nth_error (inflight w1) (length (inflight w)) = Some OtpChain
      /\ forall (w' : World) (i : nat) (r : unit),
           nth_error (inflight w') i = Some OtpChain ->
           exists (w2 : World) (e2 : list Effect),
             step (Settle i (OtpSettled (inl r))) w' = Some (w2, e2)
             /\ stepAtom w2 = EnterOtp
             /\ loadingAtom w2 = false.
Proof.
  intros w Hstep Hload Hne Hre.
  unfold step at 1. rewrite Hstep, Hload. cbn [isEnterUsername negb andb].
  rewrite (submitUsername_accepted w Hne Hre).
  eexists. eexists. split; [reflexivity|]. cbn. split.
  - rewrite nth_error_app2, Nat.sub_diag; [reflexivity|apply le_n].
  - intros w' i r Hi. eexists. eexists.
    split; [exact (otp_fulfilled w' i r Hi)|]. split; reflexivity.
Qed.

(** ** The Back button *)

Lemma backHandle_exec (w : World) :
  exec EnterOtp.backHandle w
  = (mkWorld (usernameAtom w) "" (loadingAtom w) EnterUsername (inflight w) (accounts w),
     [SetOtp ""; SetStep EnterUsername]).
Proof. reflexivity. Qed.

Lemma step_Back (w : World) :
  stepAtom w = EnterOtp -> step Back w = Some (exec EnterOtp.backHandle w).
Proof.
  intros H. unfold step. rewrite H. reflexivity.
Qed.

(** C9: the Back handler ends on the identifier step with an empty
    passphrase, puts nothing on the network, and run a second time leaves the
    page as the first run left it. *)
Theorem cancelOtp_idempotent :
  forall w : World,
    let w1 := fst (exec EnterOtp.backHandle w) in
    let e1 := snd (exec EnterOtp.backHandle w) in
    stepAtom w1 = EnterUsername
    /\ otpAtom w1 = ""
    /\ filter isNetworkCall e1 = []
    /\ inflight w1 = inflight w
    /\ fst (exec EnterOtp.backHandle w1) = w1.
Proof.
  intros w. cbv zeta. rewrite backHandle_exec. cbn [fst snd].
  rewrite backHandle_exec. cbn. auto.
Qed.

(** C10: the Back handler writes the passphrase and the step and nothing
    else: the identifier, the busy flag, the calls in flight and the store are
    as before. *)
Theorem cancelOtp_keeps_identifier :
  forall w : World,
    let w1 := fst (exec EnterOtp.backHandle w) in
    usernameAtom w1 = usernameAtom w
    /\ loadingAtom w1 = loadingAtom w
    /\ inflight w1 = inflight w
    /\ accounts w1 = accounts w
    /\ w1 = mkWorld (usernameAtom w) "" (loadingAtom w) EnterUsername
              (inflight w) (accounts w).
Proof.
  intros w. cbv zeta. rewrite backHandle_exec. cbn [fst].
  cbn. repeat split.
Qed.

(** ** The step atom *)

Lemma typing_keeps_step (w : World) (v : string) :
  stepAtom (fst (exec (EnterUsername.usernameHandleChange v) w)) = stepAtom w
  /\ stepAtom (fst (exec (EnterOtp.otpHandleChange v) w)) = stepAtom w.
Proof. split; reflexivity. Qed.

Lemma submitUsername_keeps_step (w : World) :
  stepAtom (fst (exec EnterUsername.continueHandle w)) = stepAtom w.
Proof.
  destruct (String.eqb_spec (usernameAtom w) "") as [He | Hne].
  - rewrite (submitUsername_empty w He). reflexivity.
  - destruct (USERNAME_REGEX_test (usernameAtom w)) eqn:Hre.
    + rewrite (submitUsername_accepted w Hne Hre). reflexivity.
    + rewrite (submitUsername_rejected w Hne Hre). reflexivity.
Qed.

Lemma submitOtp_keeps_step (w : World) :
  stepAtom (fst (exec EnterOtp.continueHandle w)) = stepAtom w.
Proof.
  destruct (String.eqb_spec (otpAtom w) "") as [He | Hne].
  - rewrite (submitOtp_empty w He). reflexivity.
  - rewrite (submitOtp_nonempty w Hne). reflexivity.
Qed.

(** C5: in one task the step goes from [EnterUsername] to [EnterOtp] only
    when an OTP request in flight succeeds, and from [EnterOtp] to
    [EnterUsername] only on the Back button; a login request that fails leaves
    the step as it is. *)
Theorem step_changes_only_on_otp_success_and_back :
  forall (w w' : World) (a : Action) (es : list Effect),
    step a w = Some (w', es) ->
    (stepAtom w = EnterUsername -> stepAtom w' = EnterOtp ->
     exists (i : nat) (r : unit),
       a = Settle i (OtpSettled (inl r)) /\ nth_error (inflight w) i = Some OtpChain)
    /\ (stepAtom w = EnterOtp -> stepAtom w' = EnterUsername -> a = Back)
    /\ (forall (i : nat) (res : Rejection),
          a = Settle i (LoginSettled (inr res)) -> stepAtom w' = stepAtom w).
Proof.
  intros w w' a es H.
  assert (Hsame : stepAtom w' = stepAtom w ->
                  (stepAtom w = EnterUsername -> stepAtom w' = EnterOtp ->
                   exists (i : nat) (r : unit),
                     a = Settle i (OtpSettled (inl r))
                     /\ nth_error (inflight w) i = Some OtpChain)
                  /\ (stepAtom w = EnterOtp -> stepAtom w' = EnterUsername -> a = Back)).
  { intros E. rewrite E. split; intros H1 H2; rewrite H1 in H2; discriminate. }
  destruct a as [v | | v | | | i s].
  - unfold step in H. destruct (isEnterUsername (stepAtom w)); [|discriminate].
    injection H as <- _. split; [|split]; try discriminate; apply Hsame; reflexivity.
  - unfold step in H.
    destruct (isEnterUsername (stepAtom w) && negb (loadingAtom w)); [|discriminate].
    assert (E : w' = fst (exec EnterUsername.continueHandle w)).
    { injection H as H. rewrite H. reflexivity. }
    split; [|split]; try discriminate; apply Hsame; rewrite E;
      apply submitUsername_keeps_step.
  - unfold step in H. destruct (isEnterUsername (stepAtom w)); [discriminate|].
    injection H as <- _. split; [|split]; try discriminate; apply Hsame; reflexivity.
  - unfold step in H.
    destruct (negb (isEnterUsername (stepAtom w)) && negb (loadingAtom w)); [|discriminate].
    assert (E : w' = fst (exec EnterOtp.continueHandle w)).
    { injection H as H. rewrite H. reflexivity. }
    split; [|split]; try discriminate; apply Hsame; rewrite E;
      apply submitOtp_keeps_step.
  - unfold step in H. destruct (stepAtom w) eqn:Hs; cbn in H; [discriminate|].
    injection H as <- _. cbn. split; [|split]; try discriminate; auto.
  - destruct (step_settle_inv _ _ _ _ _ H) as (p & m & Hp & Hm & _).
    destruct p as [ | | u]; destruct s as [r | r | r]; cbn in Hm; try discriminate;
      clear Hm; destruct r as [v | res].
    + rewrite (otp_fulfilled w i v Hp) in H. injection H as <- _.
      cbn. split; [|split]; try discriminate.
      intros _ _. exists i, v. split; [reflexivity|exact Hp].
    + rewrite (otp_rejected w i res Hp) in H. injection H as <- _.
      split; [|split]; try discriminate; apply Hsame; reflexivity.
    + rewrite (login_fulfilled w i v Hp) in H. injection H as <- _.
      split; [|split]; try discriminate; apply Hsame; reflexivity.
    + rewrite (login_rejected w i res Hp) in H. injection H as <- _.
      split; [|split]; [apply Hsame; reflexivity ..|]. intros; reflexivity.
    + rewrite (alias_settled w i u (inl v) Hp) in H. injection H as <- _.
      split; [|split]; try discriminate; apply Hsame; reflexivity.
    + rewrite (alias_settled w i u (inr res) Hp) in H. injection H as <- _.
      split; [|split]; try discriminate; apply Hsame; reflexivity.
Qed.

End Properties.

(** * The flow on concrete inputs *)

Section Scenario.

#[local] Existing Instance sample.

(** C2: in the scenario of the spec, the task in which the login request
    succeeds ends with the alias call issued, its chain still in flight, and
    the busy flag already false: the flag is cleared before the alias call
    settles, and the passphrase form can be submitted again meanwhile. *)
Theorem busy_flag_cleared_while_alias_in_flight :
  exists (w : World) (es : list Effect),
    run alice_logs_in (initial []) = Some (w, es ++ [GenerateAddresses "tok"; SetLoading false])
    /\ loadingAtom w = false
    /\ inflight w = [AliasChain alice]
    /\ step SubmitOtp w <> None.
Proof.
  eexists. exists
    [SetUsername "alice1"; PreventDefault; SetLoading true;
     Fetch "/api/auth/loginlink" "POST" [("username", "alice1")];
     SetStep EnterOtp; SetLoading false; SetOtp " 123456 ";
     PreventDefault; SetLoading true;
     Fetch "/api/auth/login" "POST" [("username", "alice1"); ("otp", "123456")]].
  split; [vm_compute; reflexivity|]. cbn. repeat split. discriminate.
Qed.

(** C3: a passphrase of one blank is not the empty string, so the form goes
    on; trimmed it is the empty string, and the login request goes out with an
    empty [otp]. *)
Theorem blank_otp_is_sent_empty :
  otpAtom blank_otp <> ""
  /\ step SubmitOtp blank_otp
     = Some (mkWorld "alice1" " " true EnterOtp [LoginChain] [],
             [PreventDefault; SetLoading true;
              Fetch "/api/auth/login" "POST" [("username", "alice1"); ("otp", "")]]).
Proof.
  split; [discriminate|reflexivity].
Qed.

Lemma login_success_persists_one_account_witness :
  nth_error (inflight alice_waits_for_login) 0 = Some LoginChain
  /\ exists (w1 w2 : World) (e1 e2 : list Effect),
       step (Settle 0 (LoginSettled (inl (mkLoginResponse alice)))) alice_waits_for_login
       = Some (w1, e1)
       /\ step (Settle 0 (AliasSettled (inr server_error))) w1 = Some (w2, e2)
       /\ filter isAddAccount (e1 ++ e2)
          = [AddAccount (mkAccount alice "a***" "") 0]
       /\ filter isRouterPush (e1 ++ e2) = [RouterPush "/email/?id=0"].
Proof.
  split; [reflexivity|].
  destruct (login_success_persists_one_account alice_waits_for_login 0
              (mkLoginResponse alice) eq_refl)
    as (w1 & e1 & H1 & Ha & Hr & Hacc & _ & Hin & Halias).
  destruct (Halias w1 0 (inr server_error)) as (w2 & e2 & H2 & Ha2 & _ & Hr2).
  { rewrite Hin. reflexivity. }
  exists w1, w2, e1, e2. rewrite !filter_app, Ha, Hr, Ha2, Hr2, Hacc.
  repeat split; assumption.
Defined.

Lemma failed_request_message_witness :
  nth_error (inflight alice_waits_for_login) 0 = Some (requestChain true)
  /\ exists (w' : World) (es : list Effect),
       step (Settle 0 (requestFailed true server_error)) alice_waits_for_login
       = Some (w', es)
       /\ stepAtom w' = EnterOtp
       /\ loadingAtom w' = false
       /\ filter isToastError es = [ToastError (Some "500 - Server Error")].
Proof.
  split; [reflexivity|].
  destruct (failed_request_message alice_waits_for_login 0 true server_error eq_refl)
    as (w' & es & Hs & Hstep & Hload & _ & _ & Hmsg & _).
  exists w', es. repeat split; try assumption.
  apply (Hmsg 500%Z "Server Error"); [reflexivity|discriminate|discriminate|reflexivity].
Defined.

Lemma step_changes_only_on_otp_success_and_back_witness :
  step (Settle 0 (OtpSettled (inl tt))) alice_waits_for_otp
  = Some (alice_on_otp_step, [SetStep EnterOtp; SetLoading false])
  /\ exists (i : nat) (r : unit),
       Settle 0 (OtpSettled (inl tt)) = Settle i (OtpSettled (inl r))
       /\ nth_error (inflight alice_waits_for_otp) i = Some OtpChain.
Proof.
  split; [reflexivity|].
  apply (step_changes_only_on_otp_success_and_back alice_waits_for_otp
           alice_on_otp_step
           (Settle 0 (OtpSettled (inl tt))) [SetStep EnterOtp; SetLoading false]
           eq_refl); reflexivity.
Defined.

Lemma identifier_validation_witness :
  (forall s : string, USERNAME_REGEX_test s = USERNAME_REGEX_spec s)
  /\ exec EnterUsername.continueHandle bad_identifier
     = (bad_identifier,
        [PreventDefault;
         ToastError (Some "Duck Address can only contain letters and numbers")])
  /\ exec EnterUsername.continueHandle alice_typed
     = (mkWorld "alice1" "" true EnterUsername [OtpChain] [],
        [PreventDefault; SetLoading true;
         Fetch "/api/auth/loginlink" "POST" [("username", "alice1")]]).
Proof.
  split; [reflexivity|]. split.
  - apply (identifier_validation (env := sample) (fun s => eq_refl) bad_identifier).
    exists " "%char. split; [cbn; tauto|reflexivity].
  - apply (identifier_validation (env := sample) (fun s => eq_refl) alice_typed); [discriminate|].
    intros c Hc. cbn in Hc.
    repeat (destruct Hc as [<- | Hc]; [reflexivity|]). contradiction.
Defined.

Lemma invalid_identifier_issues_no_call_witness :
  stepAtom bad_identifier = EnterUsername
  /\ loadingAtom bad_identifier = false
  /\ USERNAME_REGEX_test (usernameAtom bad_identifier) = false
  /\ exists es : list Effect,
       step SubmitUsername bad_identifier = Some (bad_identifier, es)
       /\ filter isNetworkCall es = [].
Proof.
  repeat (split; [reflexivity|]).
  destruct (invalid_identifier_issues_no_call bad_identifier eq_refl eq_refl
              (or_intror eq_refl))
    as (w' & es & Hs & Hnet & _ & _ & _ & _ & _ & Hw).
  exists es. rewrite <- Hw at 2. split; assumption.
Defined.

Lemma otp_request_success_advances_witness :
  stepAtom alice_typed = EnterUsername
  /\ loadingAtom alice_typed = false
  /\ usernameAtom alice_typed <> ""
  /\ USERNAME_REGEX_test (usernameAtom alice_typed) = true
  /\ exists (w1 w2 : World) (e1 e2 : list Effect),
       step SubmitUsername alice_typed = Some (w1, e1)
       /\ step (Settle 0 (OtpSettled (inl tt))) w1 = Some (w2, e2)
       /\ stepAtom w2 = EnterOtp
       /\ loadingAtom w2 = false.
Proof.
  split; [reflexivity|]. split; [reflexivity|]. split; [discriminate|].
  split; [reflexivity|].
  destruct (otp_request_success_advances alice_typed eq_refl eq_refl
              ltac:(discriminate) eq_refl)
    as (w1 & e1 & H1 & Hin & Hnext).
  destruct (Hnext w1 0 tt Hin) as (w2 & e2 & H2 & Hstep & Hload).
  exists w1, w2, e1, e2. repeat split; assumption.
Defined.

End Scenario.

(** * More of the page's behaviour *)

Section Tasks.

Context {env : Collaborators}.

(** ** What each task does, in closed form *)

Lemma submitUsername_exec (w : World) :
  exec EnterUsername.continueHandle w
  = if (usernameAtom w =? "")%string then
      (w, [PreventDefault; ToastError (Some (t "Duck Address cannot be empty"))])
    else if USERNAME_REGEX_test (usernameAtom w) then
      (mkWorld (usernameAtom w) (otpAtom w) true (stepAtom w)
         (inflight w ++ [OtpChain]) (accounts w),
       [PreventDefault; SetLoading true;
        Fetch "/api/auth/loginlink" "POST" [("username", usernameAtom w)]])
    else
      (w, [PreventDefault;
           ToastError (Some (t "Duck Address can only contain letters and numbers"))]).
Proof.
  destruct (String.eqb_spec (usernameAtom w) "") as [He | Hne].
  - apply submitUsername_empty, He.
  - destruct (USERNAME_REGEX_test (usernameAtom w)) eqn:Hre.
    + apply submitUsername_accepted; assumption.
    + apply submitUsername_rejected; assumption.
Qed.

Lemma submitOtp_exec (w : World) :
  exec EnterOtp.continueHandle w
  = if (otpAtom w =? "")%string then
      (w, [PreventDefault; ToastError (Some (t "One-time Passphrase cannot be empty"))])
    else
      (mkWorld (usernameAtom w) (otpAtom w) true (stepAtom w)
         (inflight w ++ [LoginChain]) (accounts w),
       [PreventDefault; SetLoading true;
        Fetch "/api/auth/login" "POST"
          [("username", usernameAtom w); ("otp", trim (otpAtom w))]]).
Proof.
  destruct (String.eqb_spec (otpAtom w) "") as [He | Hne].
  - apply submitOtp_empty, He.
  - apply submitOtp_nonempty, Hne.
Qed.

(** The page and the effects a task ends with, action by action. *)
Lemma step_inv (w w' : World) (a : Action) (es : list Effect) :
  step a w = Some (w', es) ->
  match a with
  | UsernameChange v =>
      stepAtom w = EnterUsername
      /\ (w', es) = (mkWorld v (otpAtom w) (loadingAtom w) (stepAtom w)
                       (inflight w) (accounts w), [SetUsername v])
  | SubmitUsername =>
      stepAtom w = EnterUsername /\ loadingAtom w = false
      /\ (w', es) = exec EnterUsername.continueHandle w
  | OtpChange v =>
      stepAtom w = EnterOtp
      /\ (w', es) = (mkWorld (usernameAtom w) v (loadingAtom w) (stepAtom w)
                       (inflight w) (accounts w), [SetOtp v])
  | SubmitOtp =>
      stepAtom w = EnterOtp /\ loadingAtom w = false
      /\ (w', es) = exec EnterOtp.continueHandle w
  | Back =>
      stepAtom w = EnterOtp
      /\ (w', es) = (mkWorld (usernameAtom w) "" (loadingAtom w) EnterUsername
                       (inflight w) (accounts w), [SetOtp ""; SetStep EnterUsername])
  | Settle i (OtpSettled r) =>
      nth_error (inflight w) i = Some OtpChain
      /\ loadingAtom w' = false
      /\ stepAtom w' = match r with inl _ => EnterOtp | inr _ => stepAtom w end
      /\ usernameAtom w' = usernameAtom w /\ otpAtom w' = otpAtom w
      /\ inflight w' = remove_nth i (inflight w)
      /\ accounts w' = accounts w
      /\ filter isNetworkCall es = []
      /\ filter isAddAccount es = [] /\ filter isRouterPush es = []
  | Settle i (LoginSettled r) =>
      nth_error (inflight w) i = Some LoginChain
      /\ loadingAtom w' = false
      /\ stepAtom w' = stepAtom w
      /\ usernameAtom w' = usernameAtom w /\ otpAtom w' = otpAtom w
      /\ inflight w'
         = remove_nth i (inflight w)
           ++ match r with inl res => [AliasChain (user res)] | inr _ => [] end
      /\ accounts w' = accounts w
      /\ filter isNetworkCall es
         = match r with
           | inl res => [GenerateAddresses (access_token (user res))]
           | inr _ => []
           end
      /\ filter isAddAccount es = [] /\ filter isRouterPush es = []
  | Settle i (AliasSettled r) =>
      exists u : User,
        nth_error (inflight w) i = Some (AliasChain u)
        /\ loadingAtom w' = loadingAtom w
        /\ stepAtom w' = stepAtom w
        /\ usernameAtom w' = usernameAtom w /\ otpAtom w' = otpAtom w
        /\ inflight w' = remove_nth i (inflight w)
        /\ filter isNetworkCall es = []
  end.
Proof.
  intros H. destruct a as [v | | v | | | i s].
  - unfold step in H. destruct (stepAtom w) eqn:Hs; cbn in H; [|discriminate].
    injection H as <- <-. rewrite Hs. split; reflexivity.
  - unfold step in H. destruct (stepAtom w) eqn:Hs; cbn in H; [|discriminate].
    destruct (loadingAtom w); cbn in H; [discriminate|]. injection H as H.
    repeat split. symmetry. exact H.
  - unfold step in H. destruct (stepAtom w) eqn:Hs; cbn in H; [discriminate|].
    injection H as <- <-. rewrite Hs. split; reflexivity.
  - unfold step in H. destruct (stepAtom w) eqn:Hs; cbn in H; [discriminate|].
    destruct (loadingAtom w); cbn in H; [discriminate|]. injection H as H.
    repeat split. symmetry. exact H.
  - unfold step in H. destruct (stepAtom w) eqn:Hs; cbn in H; [discriminate|].
    injection H as <- <-. split; reflexivity.
  - destruct (step_settle_inv _ _ _ _ _ H) as (p & m & Hp & Hm & _).
    destruct p as [ | | u]; destruct s as [r | r | r]; cbn in Hm; try discriminate;
      clear Hm; destruct r as [v | res].
    + rewrite (otp_fulfilled w i v Hp) in H. injection H as <- <-. cbn. auto 12.
    + rewrite (otp_rejected w i res Hp) in H. injection H as <- <-. cbn. auto 12.
    + rewrite (login_fulfilled w i v Hp) in H. injection H as <- <-. cbn. auto 12.
    + rewrite (login_rejected w i res Hp) in H. injection H as <- <-. cbn.
      rewrite app_nil_r. auto 12.
    + rewrite (alias_settled w i u (inl v) Hp) in H. injection H as <- <-.
      exists u. cbn. auto 12.
    + rewrite (alias_settled w i u (inr res) Hp) in H. injection H as <- <-.
      exists u. cbn. auto 12.
Qed.

(** ** The busy flag and the requests in flight *)

Lemma filter_remove_nth {A : Type} (f : A -> bool) (l : list A) (i : nat) (p : A) :
  nth_error l i = Some p ->
  length (filter f l)
  = (if f p then 1 else 0) + length (filter f (remove_nth i l)).
Proof.
  revert i. induction l as [|x l IH]; intros [|i] H; cbn in H; try discriminate.
  - injection H as ->. cbn. destruct (f p); reflexivity.
  - cbn. pose proof (IH i H) as E. destruct (f x), (f p); cbn in *; lia.
Qed.

Lemma filter_positive {A : Type} (f : A -> bool) (l : list A) :
  0 < length (filter f l) ->
  exists (i : nat) (p : A), nth_error l i = Some p /\ f p = true.
Proof.
  induction l as [|x l IH]; cbn; intros H.
  - lia.
  - destruct (f x) eqn:Hx.
    + exists 0, x. split; [reflexivity|exact Hx].
    + destruct (IH H) as (i & p & Hi & Hp). exists (S i), p. split; assumption.
Qed.

(** The busy flag is up exactly when one request is in flight. *)
Definition busyMatchesRequests (w : World) : Prop :=
  requestsInFlight w = if loadingAtom w then 1 else 0.

Lemma step_keeps_busyMatchesRequests (w w' : World) (a : Action) (es : list Effect) :
  busyMatchesRequests w -> step a w = Some (w', es) -> busyMatchesRequests w'.
Proof.
  unfold busyMatchesRequests, requestsInFlight. intros Hinv H.
  apply step_inv in H. destruct a as [v | | v | | | i s].
  - destruct H as (_ & H). injection H as -> _. exact Hinv.
  - destruct H as (_ & Hl & H). rewrite submitUsername_exec in H. rewrite Hl in Hinv.
    destruct (usernameAtom w =? "")%string;
      [|destruct (USERNAME_REGEX_test (usernameAtom w))];
      injection H as -> _; cbn; rewrite ?Hl, ?filter_app, ?length_app, ?Hinv;
      reflexivity.
  - destruct H as (_ & H). injection H as -> _. exact Hinv.
  - destruct H as (_ & Hl & H). rewrite submitOtp_exec in H. rewrite Hl in Hinv.
    destruct (otpAtom w =? "")%string;
      injection H as -> _; cbn; rewrite ?Hl, ?filter_app, ?length_app, ?Hinv;
      reflexivity.
  - destruct H as (_ & H). injection H as -> _. exact Hinv.
  - destruct s as [r | r | r].
    + destruct H as (Hp & Hl & _ & _ & _ & Hin & _). rewrite Hl, Hin.
      rewrite (filter_remove_nth isRequestChain _ _ _ Hp) in Hinv. cbn in Hinv.
      destruct (loadingAtom w); lia.
    + destruct H as (Hp & Hl & _ & _ & _ & Hin & _). rewrite Hl, Hin.
      rewrite (filter_remove_nth isRequestChain _ _ _ Hp) in Hinv. cbn in Hinv.
      rewrite filter_app, length_app.
      destruct r; cbn; destruct (loadingAtom w); lia.
    + destruct H as (u & Hp & Hl & _ & _ & _ & Hin & _). rewrite Hl, Hin.
      rewrite (filter_remove_nth isRequestChain _ _ _ Hp) in Hinv. exact Hinv.
Qed.

Lemma reachable_busyMatchesRequests (w : World) :
  reachable w -> busyMatchesRequests w.
Proof.
  induction 1 as [s | a w w' es _ IH H].
  - reflexivity.
  - exact (step_keeps_busyMatchesRequests w w' a es IH H).
Qed.

(** X1: on every page a fresh load can get to, one OTP or login request is in
    flight when the busy flag is up and none when it is down: there are never
    two, and neither form can be submitted while one is in flight. *)
Theorem at_most_one_request_in_flight :
  forall w : World,
    reachable w ->
    requestsInFlight w = (if loadingAtom w then 1 else 0)
    /\ requestsInFlight w <= 1
    /\ (step SubmitUsername w <> None -> requestsInFlight w = 0)
    /\ (step SubmitOtp w <> None -> requestsInFlight w = 0).
Proof.
  intros w Hr. pose proof (reachable_busyMatchesRequests w Hr) as Hinv.
  unfold busyMatchesRequests in Hinv. rewrite Hinv.
  split; [reflexivity|]. split; [destruct (loadingAtom w); lia|].
  unfold step.
  split; intros H; destruct (loadingAtom w); try reflexivity;
    rewrite andb_false_r in H; contradiction.
Qed.

(** X2: on every page a fresh load can get to with the busy flag up, a request
    is in flight whose settlement, failed or not, brings the flag down and
    leaves no request in flight. *)
Theorem busy_flag_cleared_by_settlement :
  forall w : World,
    reachable w -> loadingAtom w = true ->
    exists (i : nat) (login : bool),
      nth_error (inflight w) i = Some (requestChain login)
      /\ forall (s : Settlement) (m : M unit),
           resume (requestChain login) s = Some m ->
           exists (w' : World) (es : list Effect),
             step (Settle i s) w = Some (w', es)
             /\ loadingAtom w' = false
             /\ requestsInFlight w' = 0.
Proof.
  intros w Hr Hl. pose proof (reachable_busyMatchesRequests w Hr) as Hinv.
  unfold busyMatchesRequests in Hinv. rewrite Hl in Hinv.
  destruct (filter_positive isRequestChain (inflight w)) as (i & p & Hp & Hreq).
  { unfold requestsInFlight in Hinv. lia. }
  assert (Hlogin : exists login, p = requestChain login).
  { destruct p; [exists false|exists true|discriminate]; reflexivity. }
  destruct Hlogin as (login & ->). exists i, login. split; [exact Hp|].
  intros s m Hm.
  assert (Hstep : step (Settle i s) w = Some (exec m (settled i w))).
  { unfold step. rewrite Hp, Hm. reflexivity. }
  destruct (exec m (settled i w)) as [w' es] eqn:He.
  exists w', es. split; [exact Hstep|].
  assert (Hinv' := step_keeps_busyMatchesRequests _ _ _ _
                     (reachable_busyMatchesRequests w Hr) Hstep).
  unfold busyMatchesRequests in Hinv'.
  apply step_inv in Hstep.
  destruct login, s as [r | r | r]; cbn in Hm; try discriminate;
    destruct Hstep as (_ & Hl' & _); rewrite Hl' in Hinv'; auto.
Qed.

(** ** What a task never does *)

(** X3: only the settlement of an alias call reaches the account store or the
    router: every other task leaves the store as it is and calls neither
    [store.addAccount] nor [router.push]. *)
Theorem only_alias_settlement_stores_and_navigates :
  forall (w w' : World) (a : Action) (es : list Effect),
    step a w = Some (w', es) ->
    (forall (i : nat) (r : Address + Rejection), a <> Settle i (AliasSettled r)) ->
    accounts w' = accounts w
    /\ filter isAddAccount es = []
    /\ filter isRouterPush es = [].
Proof.
  intros w w' a es H Hna. apply step_inv in H.
  destruct a as [v | | v | | | i s].
  - destruct H as (_ & H). injection H as -> ->. repeat split.
  - destruct H as (_ & _ & H). rewrite submitUsername_exec in H.
    destruct (usernameAtom w =? "")%string;
      [|destruct (USERNAME_REGEX_test (usernameAtom w))];
      injection H as -> ->; repeat split.
  - destruct H as (_ & H). injection H as -> ->. repeat split.
  - destruct H as (_ & _ & H). rewrite submitOtp_exec in H.
    destruct (otpAtom w =? "")%string; injection H as -> ->; repeat split.
  - destruct H as (_ & H). injection H as -> ->. repeat split.
  - destruct s as [r | r | r].
    + destruct H as (_ & _ & _ & _ & _ & _ & Hacc & _ & Ha & Hr). auto.
    + destruct H as (_ & _ & _ & _ & _ & _ & Hacc & _ & Ha & Hr). auto.
    + elim (Hna i r). reflexivity.
Qed.

(** X4: the network calls of a task. The identifier form sends the OTP
    request, and only for an identifier that passes both checks; the
    passphrase form sends the login request, and only for a passphrase that is
    not the empty string; a login that succeeds sends the alias call with the
    access token of the response; no other task sends anything, and no task
    sends two calls. *)
Theorem network_calls_of_a_task :
  forall (w w' : World) (a : Action) (es : list Effect),
    step a w = Some (w', es) ->
    filter isNetworkCall es
    = match a with
      | SubmitUsername =>
          if (usernameAtom w =? "")%string || negb (USERNAME_REGEX_test (usernameAtom w))
          then []
          else [Fetch "/api/auth/loginlink" "POST" [("username", usernameAtom w)]]
      | SubmitOtp =>
          if (otpAtom w =? "")%string then []
          else [Fetch "/api/auth/login" "POST"
                  [("username", usernameAtom w); ("otp", trim (otpAtom w))]]
      | Settle _ (LoginSettled (inl res)) =>
          [GenerateAddresses (access_token (user res))]
      | _ => []
      end.
Proof.
  intros w w' a es H. apply step_inv in H.
  destruct a as [v | | v | | | i s].
  - destruct H as (_ & H). injection H as _ ->. reflexivity.
  - destruct H as (_ & _ & H). rewrite submitUsername_exec in H.
    destruct (usernameAtom w =? "")%string;
      [|destruct (USERNAME_REGEX_test (usernameAtom w))];
      injection H as _ ->; reflexivity.
  - destruct H as (_ & H). injection H as _ ->. reflexivity.
  - destruct H as (_ & _ & H). rewrite submitOtp_exec in H.
    destruct (otpAtom w =? "")%string; injection H as _ ->; reflexivity.
  - destruct H as (_ & H). injection H as _ ->. reflexivity.
  - destruct s as [r | r | r].
    + destruct H as (_ & _ & _ & _ & _ & _ & _ & Hn & _). exact Hn.
    + destruct H as (_ & _ & _ & _ & _ & _ & _ & Hn & _). destruct r; exact Hn.
    + destruct H as (u & _ & _ & _ & _ & _ & _ & Hn). exact Hn.
Qed.

(** ** After a failure, and while the alias call is out *)

(** X5: a failed OTP or login request keeps what was typed, leaves the store
    alone and navigates nowhere, and the form of the step the request was sent
    from can be submitted again at once. *)
Theorem failed_request_can_be_retried :
  forall (w : World) (i : nat) (login : bool) (res : Rejection),
    nth_error (inflight w) i = Some (requestChain login) ->
    exists (w' : World) (es : list Effect),
      step (Settle i (requestFailed login res)) w = Some (w', es)
      /\ usernameAtom w' = usernameAtom w
      /\ otpAtom w' = otpAtom w
      /\ accounts w' = accounts w
      /\ inflight w' = remove_nth i (inflight w)
      /\ filter isRouterPush es = []
      /\ (stepAtom w = (if login then EnterOtp else EnterUsername) ->
          step (if login then SubmitOtp else SubmitUsername) w'
          = Some (exec (if login then EnterOtp.continueHandle
                        else EnterUsername.continueHandle) w')).
Proof.
  intros w i login res H. destruct login; cbn in H |- *.
  - eexists. eexists. split; [exact (login_rejected w i res H)|].
    cbn. repeat split. intros Hs. unfold step. cbn. rewrite Hs. reflexivity.
  - eexists. eexists. split; [exact (otp_rejected w i res H)|].
    cbn. repeat split. intros Hs. unfold step. cbn. rewrite Hs. reflexivity.
Qed.

(** X6: once the login request has succeeded the passphrase form is open
    again although the alias call is still out: submitting it sends a second
    login request, with the same identifier and passphrase, next to the alias
    chain of the first. *)
Theorem passphrase_form_open_during_alias_call :
  forall (w : World) (i : nat) (res : LoginResponse),
    nth_error (inflight w) i = Some LoginChain ->
    stepAtom w = EnterOtp ->
    otpAtom w <> "" ->
    exists (w1 w2 : World) (e1 e2 : list Effect),
      step (Settle i (LoginSettled (inl res))) w = Some (w1, e1)
      /\ step SubmitOtp w1 = Some (w2, e2)
      /\ inflight w2
         = remove_nth i (inflight w) ++ [AliasChain (user res); LoginChain]
      /\ filter isNetworkCall e2
         = [Fetch "/api/auth/login" "POST"
              [("username", usernameAtom w); ("otp", trim (otpAtom w))]].
Proof.
  intros w i res H Hs Hne.
  eexists. eexists. eexists. eexists.
  split; [exact (login_fulfilled w i res H)|].
  split.
  - unfold step. cbn. rewrite Hs. cbn. rewrite submitOtp_nonempty by exact Hne.
    reflexivity.
  - cbn. rewrite <- app_assoc. split; reflexivity.
Qed.

(** X7: when the alias call settles, failed or not, the four atoms stay as
    they are (the page is still on the passphrase step, the passphrase still
    in its field), no error is shown, and the task ends with the notice of a
    successful login. *)
Theorem alias_settlement_leaves_the_form :
  forall (w : World) (j : nat) (u : User) (r : Address + Rejection),
    nth_error (inflight w) j = Some (AliasChain u) ->
    exists (w' : World) (es pre : list Effect),
      step (Settle j (AliasSettled r)) w = Some (w', es)
      /\ usernameAtom w' = usernameAtom w
      /\ otpAtom w' = otpAtom w
      /\ loadingAtom w' = loadingAtom w
      /\ stepAtom w' = stepAtom w
      /\ filter isToastError es = []
      /\ es = pre ++ [ToastSuccess (t "Login Success")].
Proof.
  intros w j u r H.
  pose proof (alias_settled w j u r H) as E. cbv zeta in E.
  eexists. eexists.
  exists (match r with
          | inl _ => []
          | inr res => [ConsoleLog "generate alias error" res]
          end
          ++ [AddAccount
                (mkAccount u (maskEmail (email u))
                   (match r with inl a => address a | inr _ => "" end))
                (fst (addAccount
                        (mkAccount u (maskEmail (email u))
                           (match r with inl a => address a | inr _ => "" end))
                        (accounts w)));
              RouterPush
                ("/email/?id="
                 ++ numberToString
                      (Z.of_nat
                         (fst (addAccount
                                 (mkAccount u (maskEmail (email u))
                                    (match r with inl a => address a | inr _ => "" end))
                                 (accounts w)))))%string]).
  split; [exact E|]. cbn. repeat split.
  - destruct r; reflexivity.
  - destruct r; reflexivity.
Qed.

(** ** The order of the requests *)

Lemma step_login_request_from_EnterOtp (w w' : World) (a : Action) (es : list Effect)
    (method : string) (body : list (string * string)) :
  step a w = Some (w', es) ->
  In (Fetch "/api/auth/login" method body) es ->
  stepAtom w = EnterOtp.
Proof.
  intros H Hin.
  assert (Hnet : In (Fetch "/api/auth/login" method body) (filter isNetworkCall es)).
  { apply filter_In. split; [exact Hin|reflexivity]. }
  apply step_inv in H. destruct a as [v | | v | | | i s].
  - destruct H as (_ & H). injection H as _ ->. destruct Hnet.
  - destruct H as (_ & _ & H). rewrite submitUsername_exec in H.
    destruct (usernameAtom w =? "")%string;
      [|destruct (USERNAME_REGEX_test (usernameAtom w))];
      injection H as _ ->; cbn in Hnet; try contradiction.
    destruct Hnet as [Hf|[]]. discriminate.
  - destruct H as (Hs & _). exact Hs.
  - destruct H as (Hs & _). exact Hs.
  - destruct H as (Hs & _). exact Hs.
  - destruct s as [r | r | r].
    + destruct H as (_ & _ & _ & _ & _ & _ & _ & Hn & _). rewrite Hn in Hnet.
      destruct Hnet.
    + destruct H as (_ & _ & _ & _ & _ & _ & _ & Hn & _). rewrite Hn in Hnet.
      destruct r; cbn in Hnet; [destruct Hnet as [Hf|[]]; discriminate|destruct Hnet].
    + destruct H as (u & _ & _ & _ & _ & _ & _ & Hn). rewrite Hn in Hnet.
      destruct Hnet.
Qed.

Lemma step_to_EnterOtp (w w' : World) (a : Action) (es : list Effect) :
  step a w = Some (w', es) ->
  stepAtom w = EnterUsername -> stepAtom w' = EnterOtp ->
  exists (i : nat) (r : unit), a = Settle i (OtpSettled (inl r)).
Proof.
  intros H Hs Hs'. apply step_inv in H. destruct a as [v | | v | | | i s].
  - destruct H as (_ & H). injection H as -> _. cbn in Hs'. congruence.
  - destruct H as (_ & _ & H). rewrite submitUsername_exec in H.
    destruct (usernameAtom w =? "")%string;
      [|destruct (USERNAME_REGEX_test (usernameAtom w))];
      injection H as -> _; cbn in Hs'; congruence.
  - destruct H as (H & _). congruence.
  - destruct H as (H & _). congruence.
  - destruct H as (H & _). congruence.
  - destruct s as [[r | res] | r | r].
    + exists i, r. reflexivity.
    + destruct H as (_ & _ & H & _). congruence.
    + destruct H as (_ & _ & H & _). congruence.
    + destruct H as (u & _ & _ & H & _). congruence.
Qed.

(** X8: from a page on the identifier step, a run of tasks that sends a login
    request has a successful OTP request before it: the tasks split at the
    settlement of an OTP request that succeeded, and the tasks before the
    split send no login request. *)
Theorem login_request_only_after_otp_success :
  forall (acts : list Action) (w w' : World) (es : list Effect),
    stepAtom w = EnterUsername ->
    run acts w = Some (w', es) ->
    (exists (method : string) (body : list (string * string)),
       In (Fetch "/api/auth/login" method body) es) ->
    exists (pre post : list Action) (i : nat) (r : unit)
           (wp : World) (ep : list Effect),
      acts = pre ++ Settle i (OtpSettled (inl r)) :: post
      /\ run pre w = Some (wp, ep)
      /\ forall (method : string) (body : list (string * string)),
           ~ In (Fetch "/api/auth/login" method body) ep.
Proof.
  induction acts as [|a acts IH]; intros w w' es Hs Hrun (method & body & Hin).
  - injection Hrun as _ <-. destruct Hin.
  - cbn in Hrun.
    destruct (step a w) as [[w1 e1]|] eqn:Hstep; [|discriminate].
    destruct (run acts w1) as [[w2 e2]|] eqn:Hrest; [|discriminate].
    injection Hrun as _ <-.
    assert (Hno : forall m b, ~ In (Fetch "/api/auth/login" m b) e1).
    { intros m b Hm.
      pose proof (step_login_request_from_EnterOtp _ _ _ _ _ _ Hstep Hm). congruence. }
    destruct (stepAtom w1) eqn:Hs1.
    + apply in_app_or in Hin. destruct Hin as [Hin | Hin]; [elim (Hno _ _ Hin)|].
      destruct (IH w1 w2 e2 Hs1 Hrest (ex_intro _ method (ex_intro _ body Hin)))
        as (pre & post & i & r & wp & ep & -> & Hpre & Hnone).
      exists (a :: pre), post, i, r, wp, (e1 ++ ep).
      split; [reflexivity|]. split.
      * cbn. rewrite Hstep, Hpre. reflexivity.
      * intros m b Hm. apply in_app_or in Hm. destruct Hm as [Hm | Hm].
        -- exact (Hno _ _ Hm).
        -- exact (Hnone _ _ Hm).
    + destruct (step_to_EnterOtp _ _ _ _ Hstep Hs Hs1) as (i & r & ->).
      exists [], acts, i, r, w, [].
      split; [reflexivity|]. split; [reflexivity|]. intros m b [].
Qed.

(** X9: the identifier field stays open while the OTP request is out. An
    identifier that passed the checks can be replaced by any string before the
    request settles; the page then moves to the passphrase step all the same,
    and the login request carries the replacement, which no check has seen. *)
Theorem identifier_can_change_while_otp_request_is_out :
  forall (s : Store) (u v o : string),
    u <> "" -> USERNAME_REGEX_test u = true -> o <> "" ->
    run [UsernameChange u; SubmitUsername; UsernameChange v;
         Settle 0 (OtpSettled (inl tt)); OtpChange o; SubmitOtp] (initial s)
    = Some (mkWorld v o true EnterOtp [LoginChain] s,
            [SetUsername u; PreventDefault; SetLoading true;
             Fetch "/api/auth/loginlink" "POST" [("username", u)];
             SetUsername v; SetStep EnterOtp; SetLoading false; SetOtp o;
             PreventDefault; SetLoading true;
             Fetch "/api/auth/login" "POST" [("username", v); ("otp", trim o)]]).
Proof.
  intros s u v o Hu Hre Ho.
  unfold run.
  change (step (UsernameChange u) (initial s))
    with (Some (mkWorld u "" false EnterUsername [] s, [SetUsername u])).
  cbv iota beta.
  assert (E1 : step SubmitUsername (mkWorld u "" false EnterUsername [] s)
               = Some (mkWorld u "" true EnterUsername [OtpChain] s,
                       [PreventDefault; SetLoading true;
                        Fetch "/api/auth/loginlink" "POST" [("username", u)]])).
  { unfold step. cbn [stepAtom loadingAtom isEnterUsername negb andb].
    rewrite submitUsername_accepted by assumption. reflexivity. }
  rewrite E1. cbv iota beta.
  change (step (UsernameChange v) (mkWorld u "" true EnterUsername [OtpChain] s))
    with (Some (mkWorld v "" true EnterUsername [OtpChain] s, [SetUsername v])).
  cbv iota beta.
  change (step (Settle 0 (OtpSettled (inl tt)))
            (mkWorld v "" true EnterUsername [OtpChain] s))
    with (Some (mkWorld v "" false EnterOtp [] s, [SetStep EnterOtp; SetLoading false])).
  cbv iota beta.
  change (step (OtpChange o) (mkWorld v "" false EnterOtp [] s))
    with (Some (mkWorld v o false EnterOtp [] s, [SetOtp o])).
  cbv iota beta.
  assert (E2 : step SubmitOtp (mkWorld v o false EnterOtp [] s)
               = Some (mkWorld v o true EnterOtp [LoginChain] s,
                       [PreventDefault; SetLoading true;
                        Fetch "/api/auth/login" "POST"
                          [("username", v); ("otp", trim o)]])).
  { unfold step. cbn [stepAtom loadingAtom isEnterUsername negb andb].
    rewrite submitOtp_nonempty by assumption. reflexivity. }
  rewrite E2. reflexivity.
Qed.

(** ** The Back button and the calls that are out *)

Lemma nth_error_app_length {A : Type} (l l' : list A) (x : A) :
  nth_error (l ++ x :: l') (length l) = Some x.
Proof.
  induction l as [|y l IH]; [reflexivity|exact IH].
Qed.

Lemma remove_nth_app_length {A : Type} (l l' : list A) (x : A) :
  remove_nth (length l) (l ++ x :: l') = l ++ l'.
Proof.
  induction l as [|y l IH]; [reflexivity|]. cbn. rewrite IH. reflexivity.
Qed.

(** X10: the Back button throws the passphrase away. Going back, sending a
    valid identifier again and getting the OTP request through opens the
    passphrase step with an empty passphrase, the identifier as it was, and the
    calls that were out still out. *)
Theorem back_then_new_otp_request_starts_empty :
  forall w : World,
    stepAtom w = EnterOtp -> loadingAtom w = false ->
    usernameAtom w <> "" -> USERNAME_REGEX_test (usernameAtom w) = true ->
    exists es : list Effect,
      run [Back; SubmitUsername; Settle (length (inflight w)) (OtpSettled (inl tt))] w
      = Some (mkWorld (usernameAtom w) "" false EnterOtp (inflight w) (accounts w), es)
      /\ filter isNetworkCall es
         = [Fetch "/api/auth/loginlink" "POST" [("username", usernameAtom w)]].
Proof.
  intros w Hs Hl Hne Hre. unfold run.
  rewrite (step_Back w Hs), backHandle_exec. cbv iota beta.
  assert (E1 : step SubmitUsername
                 (mkWorld (usernameAtom w) "" (loadingAtom w) EnterUsername
                    (inflight w) (accounts w))
               = Some (mkWorld (usernameAtom w) "" true EnterUsername
                         (inflight w ++ [OtpChain]) (accounts w),
                       [PreventDefault; SetLoading true;
                        Fetch "/api/auth/loginlink" "POST"
                          [("username", usernameAtom w)]])).
  { unfold step. cbn [stepAtom loadingAtom isEnterUsername]. rewrite Hl.
    cbn [negb andb]. rewrite submitUsername_accepted by assumption. reflexivity. }
  rewrite E1. cbv iota beta.
  rewrite (otp_fulfilled
             (mkWorld (usernameAtom w) "" true EnterUsername
                (inflight w ++ [OtpChain]) (accounts w))
             (length (inflight w)) tt
             (nth_error_app_length (inflight w) [] OtpChain)).
  cbn [usernameAtom otpAtom inflight accounts].
  rewrite remove_nth_app_length, app_nil_r.
  eexists. split; reflexivity.
Qed.

(** X11: the Back button does not call a login request back. With the login
    request out, going back shows the identifier form with its button still
    disabled; when the request then succeeds the alias call goes out all the
    same, the page stays on the identifier step, and the button is enabled
    again. *)
Theorem back_does_not_cancel_login :
  forall (w : World) (i : nat) (res : LoginResponse),
    stepAtom w = EnterOtp -> loadingAtom w = true ->
    nth_error (inflight w) i = Some LoginChain ->
    exists (w1 w2 : World) (e1 e2 : list Effect),
      step Back w = Some (w1, e1)
      /\ stepAtom w1 = EnterUsername
      /\ step SubmitUsername w1 = None
      /\ step (Settle i (LoginSettled (inl res))) w1 = Some (w2, e2)
      /\ filter isNetworkCall e2 = [GenerateAddresses (access_token (user res))]
      /\ stepAtom w2 = EnterUsername
      /\ step SubmitUsername w2 = Some (exec EnterUsername.continueHandle w2).
Proof.
  intros w i res Hs Hl Hp.
  eexists. eexists. eexists. eexists.
  split; [rewrite (step_Back w Hs), backHandle_exec; reflexivity|].
  split; [reflexivity|].
  split; [unfold step; cbn; rewrite Hl; reflexivity|].
  split; [apply login_fulfilled; exact Hp|].
  repeat split.
Qed.

End Tasks.

(** * The strings the page sends and builds *)

From Stdlib Require DecimalZ DecimalPos.

Section Strings.

Context {env : Collaborators}.

(** ** The passphrase that is sent *)

Tactic Notation "trim_cbn" :=
  cbn [trimStart trimEnd onlyWhiteSpace startsWithWhiteSpace endsWithWhiteSpace append].
Tactic Notation "trim_cbn" "in" hyp(H) :=
  cbn [trimStart trimEnd onlyWhiteSpace startsWithWhiteSpace endsWithWhiteSpace append]
    in H.

Lemma trimStart_split (s : string) :
  exists pre : string, s = (pre ++ trimStart s)%string /\ onlyWhiteSpace pre = true.
Proof.
  induction s as [|c s (pre & Hs & Hpre)]; trim_cbn.
  - exists "". split; reflexivity.
  - destruct (isWhiteSpace c) eqn:Hc.
    + exists (String c pre). trim_cbn. rewrite Hc, Hpre, <- Hs. split; reflexivity.
    + exists "". split; reflexivity.
Qed.

Lemma trimStart_clean (s : string) :
  startsWithWhiteSpace (trimStart s) = false.
Proof.
  induction s as [|c s IH]; trim_cbn.
  - reflexivity.
  - destruct (isWhiteSpace c) eqn:Hc; [exact IH|exact Hc].
Qed.

Lemma trimEnd_split (s : string) :
  exists post : string, s = (trimEnd s ++ post)%string /\ onlyWhiteSpace post = true.
Proof.
  induction s as [|c s (post & Hs & Hpost)]; trim_cbn.
  - exists "". split; reflexivity.
  - destruct (trimEnd s) as [|d r].
    + trim_cbn in Hs. subst post. destruct (isWhiteSpace c) eqn:Hc.
      * exists (String c s). trim_cbn. rewrite Hc, Hpost. split; reflexivity.
      * exists s. split; [reflexivity|exact Hpost].
    + exists post. trim_cbn. rewrite Hs at 1. split; [reflexivity|exact Hpost].
Qed.

Lemma trimEnd_clean (s : string) :
  endsWithWhiteSpace (trimEnd s) = false.
Proof.
  induction s as [|c s IH]; trim_cbn.
  - reflexivity.
  - destruct (trimEnd s) as [|d r].
    + destruct (isWhiteSpace c) eqn:Hc; [reflexivity|exact Hc].
    + exact IH.
Qed.

Lemma trimEnd_keeps_start (s : string) :
  startsWithWhiteSpace s = false -> startsWithWhiteSpace (trimEnd s) = false.
Proof.
  destruct s as [|c s]; trim_cbn; intros H.
  - reflexivity.
  - destruct (trimEnd s); [rewrite H|]; exact H.
Qed.

Lemma trimEnd_fixed (s : string) :
  endsWithWhiteSpace s = false -> trimEnd s = s.
Proof.
  induction s as [|c s IH]; intros H.
  - reflexivity.
  - destruct s as [|d r].
    + trim_cbn in H; trim_cbn. rewrite H. reflexivity.
    + change (endsWithWhiteSpace (String d r) = false) in H.
      change (trimEnd (String c (String d r)))
        with (match trimEnd (String d r) with
              | EmptyString =>
                  if isWhiteSpace c then EmptyString else String c EmptyString
              | String a b => String c (String a b)
              end).
      rewrite (IH H). reflexivity.
Qed.

Lemma trimStart_fixed (s : string) :
  startsWithWhiteSpace s = false -> trimStart s = s.
Proof.
  destruct s as [|c s]; trim_cbn; intros H; [reflexivity|]. rewrite H. reflexivity.
Qed.

(** X12: the passphrase of the login request is the passphrase typed without
    the white space before and after it: what is typed is white space, then
    what is sent, then white space, and what is sent neither starts nor ends
    with white space. *)
Theorem login_request_carries_trimmed_passphrase :
  forall w : World,
    otpAtom w <> "" ->
    exists pre sent post : string,
      otpAtom w = (pre ++ sent ++ post)%string
      /\ onlyWhiteSpace pre = true
      /\ onlyWhiteSpace post = true
      /\ startsWithWhiteSpace sent = false
      /\ endsWithWhiteSpace sent = false
      /\ snd (exec EnterOtp.continueHandle w)
         = [PreventDefault; SetLoading true;
            Fetch "/api/auth/login" "POST"
              [("username", usernameAtom w); ("otp", sent)]].
Proof.
  intros w Hne.
  destruct (trimStart_split (otpAtom w)) as (pre & Hs & Hpre).
  destruct (trimEnd_split (trimStart (otpAtom w))) as (post & He & Hpost).
  exists pre, (trim (otpAtom w)), post. unfold trim at 1.
  rewrite <- He, <- Hs. split; [reflexivity|].
  repeat (split; [assumption|]).
  split; [apply trimEnd_keeps_start, trimStart_clean|].
  split; [apply trimEnd_clean|].
  rewrite (submitOtp_nonempty w Hne). reflexivity.
Qed.

(** X13: a passphrase that is not empty and neither starts nor ends with white
    space is sent as it was typed. *)
Theorem clean_passphrase_is_sent_as_typed :
  forall w : World,
    otpAtom w <> "" ->
    startsWithWhiteSpace (otpAtom w) = false ->
    endsWithWhiteSpace (otpAtom w) = false ->
    snd (exec EnterOtp.continueHandle w)
    = [PreventDefault; SetLoading true;
       Fetch "/api/auth/login" "POST"
         [("username", usernameAtom w); ("otp", otpAtom w)]].
Proof.
  intros w Hne Hstart Hend.
  rewrite (submitOtp_nonempty w Hne). unfold trim.
  rewrite (trimStart_fixed _ Hstart), (trimEnd_fixed _ Hend). reflexivity.
Qed.

(** ** The address the router is sent to *)

Lemma to_int_nonnil (n : Z) :
  Z.to_int n <> Decimal.Pos Decimal.Nil /\ Z.to_int n <> Decimal.Neg Decimal.Nil.
Proof.
  destruct n as [|p|p]; cbn; split; try discriminate;
    intros H; injection H as H; exact (DecimalPos.Unsigned.to_uint_nonnil p H).
Qed.

Lemma numberToString_inj (n m : Z) :
  numberToString n = numberToString m -> n = m.
Proof.
  unfold numberToString. intros H.
  apply DecimalZ.to_int_inj.
  destruct (to_int_nonnil n) as (Hn1 & Hn2), (to_int_nonnil m) as (Hm1 & Hm2).
  pose proof (NilZero.isi _ Hn1 Hn2) as En.
  pose proof (NilZero.isi _ Hm1 Hm2) as Em.
  rewrite H in En. rewrite En in Em. injection Em as Em. exact Em.
Qed.

(** X14: the address the router is sent to tells the account: two indices
    with the same address are the same index. *)
Theorem navigation_target_determines_index :
  forall (w : World) (i j : nat),
    exec (EnterOtp.router_push_email i) w = exec (EnterOtp.router_push_email j) w ->
    i = j.
Proof.
  intros w i j H. unfold EnterOtp.router_push_email, exec, emit in H.
  injection H as H. apply Nat2Z.inj, numberToString_inj. exact H.
Qed.

End Strings.

(** * More of the flow on concrete inputs *)

Section MoreScenario.

#[local] Existing Instance sample.

Lemma alice_waits_for_otp_reachable : reachable alice_waits_for_otp.
Proof.
  apply (reachable_step SubmitUsername alice_typed alice_waits_for_otp
           [PreventDefault; SetLoading true;
            Fetch "/api/auth/loginlink" "POST" [("username", "alice1")]]);
    [|reflexivity].
  apply (reachable_step (UsernameChange "alice1") fresh_page alice_typed
           [SetUsername "alice1"]); [|reflexivity].
  apply reachable_initial.
Defined.

Lemma at_most_one_request_in_flight_witness :
  reachable alice_waits_for_otp
  /\ requestsInFlight alice_waits_for_otp = 1
  /\ requestsInFlight alice_waits_for_otp <= 1.
Proof.
  split; [exact alice_waits_for_otp_reachable|].
  destruct (at_most_one_request_in_flight alice_waits_for_otp
              alice_waits_for_otp_reachable) as (H1 & H2 & _).
  split; [exact H1|exact H2].
Defined.

Lemma busy_flag_cleared_by_settlement_witness :
  reachable alice_waits_for_otp
  /\ loadingAtom alice_waits_for_otp = true
  /\ exists (i : nat) (login : bool),
       nth_error (inflight alice_waits_for_otp) i = Some (requestChain login).
Proof.
  split; [exact alice_waits_for_otp_reachable|]. split; [reflexivity|].
  destruct (busy_flag_cleared_by_settlement alice_waits_for_otp
              alice_waits_for_otp_reachable eq_refl) as (i & login & H & _).
  exists i, login. exact H.
Defined.

Lemma only_alias_settlement_stores_and_navigates_witness :
  step Back alice_typed_otp = Some (alice_typed, [SetOtp ""; SetStep EnterUsername])
  /\ accounts alice_typed = accounts alice_typed_otp
  /\ filter isAddAccount [SetOtp ""; SetStep EnterUsername] = [].
Proof.
  split; [reflexivity|].
  destruct (only_alias_settlement_stores_and_navigates alice_typed_otp alice_typed
              Back [SetOtp ""; SetStep EnterUsername] eq_refl) as (H1 & H2 & _).
  { intros i r. discriminate. }
  split; assumption.
Defined.

Lemma network_calls_of_a_task_witness :
  step SubmitOtp alice_typed_otp
  = Some (mkWorld "alice1" "123456" true EnterOtp [LoginChain] (accounts alice_typed_otp),
          [PreventDefault; SetLoading true;
           Fetch "/api/auth/login" "POST" [("username", "alice1"); ("otp", "123456")]])
  /\ filter isNetworkCall
       [PreventDefault; SetLoading true;
        Fetch "/api/auth/login" "POST" [("username", "alice1"); ("otp", "123456")]]
     = [Fetch "/api/auth/login" "POST" [("username", "alice1"); ("otp", "123456")]].
Proof.
  split; [reflexivity|].
  exact (network_calls_of_a_task alice_typed_otp _ SubmitOtp _ eq_refl).
Defined.

Lemma failed_request_can_be_retried_witness :
  nth_error (inflight alice_waits_for_login) 0 = Some (requestChain true)
  /\ exists (w' : World) (es : list Effect),
       step (Settle 0 (requestFailed true server_error)) alice_waits_for_login
       = Some (w', es)
       /\ otpAtom w' = " 123456 "
       /\ step SubmitOtp w' = Some (exec EnterOtp.continueHandle w').
Proof.
  split; [reflexivity|].
  destruct (failed_request_can_be_retried alice_waits_for_login 0 true server_error
              eq_refl) as (w' & es & Hs & _ & Ho & _ & _ & _ & Hretry).
  exists w', es. split; [exact Hs|]. split; [exact Ho|]. apply Hretry. reflexivity.
Defined.

Lemma passphrase_form_open_during_alias_call_witness :
  nth_error (inflight alice_waits_for_login) 0 = Some LoginChain
  /\ stepAtom alice_waits_for_login = EnterOtp
  /\ otpAtom alice_waits_for_login <> ""
  /\ exists (w1 w2 : World) (e1 e2 : list Effect),
       step (Settle 0 (LoginSettled (inl (mkLoginResponse alice)))) alice_waits_for_login
       = Some (w1, e1)
       /\ step SubmitOtp w1 = Some (w2, e2)
       /\ inflight w2 = [AliasChain alice; LoginChain].
Proof.
  split; [reflexivity|]. split; [reflexivity|]. split; [discriminate|].
  destruct (passphrase_form_open_during_alias_call alice_waits_for_login 0
              (mkLoginResponse alice) eq_refl eq_refl ltac:(discriminate))
    as (w1 & w2 & e1 & e2 & H1 & H2 & Hin & _).
  exists w1, w2, e1, e2. repeat split; assumption.
Defined.

Lemma alias_settlement_leaves_the_form_witness :
  nth_error (inflight alice_waits_for_alias) 0 = Some (AliasChain alice)
  /\ exists (w' : World) (es : list Effect),
       step (Settle 0 (AliasSettled (inr server_error))) alice_waits_for_alias
       = Some (w', es)
       /\ otpAtom w' = " 123456 "
       /\ stepAtom w' = EnterOtp
       /\ filter isToastError es = [].
Proof.
  split; [reflexivity|].
  destruct (alias_settlement_leaves_the_form alice_waits_for_alias 0 alice
              (inr server_error) eq_refl)
    as (w' & es & pre & Hs & _ & Ho & _ & Hstep & Herr & _).
  exists w', es. repeat split; assumption.
Defined.

Lemma login_request_only_after_otp_success_witness :
  stepAtom fresh_page = EnterUsername
  /\ exists (pre post : list Action) (i : nat) (r : unit),
       alice_submits_otp = pre ++ Settle i (OtpSettled (inl r)) :: post.
Proof.
  split; [reflexivity|].
  destruct (login_request_only_after_otp_success alice_submits_otp fresh_page
              (mkWorld "alice1" " 123456 " true EnterOtp [LoginChain]
                 (accounts alice_typed))
              [SetUsername "alice1"; PreventDefault; SetLoading true;
               Fetch "/api/auth/loginlink" "POST" [("username", "alice1")];
               SetStep EnterOtp; SetLoading false; SetOtp " 123456 ";
               PreventDefault; SetLoading true;
               Fetch "/api/auth/login" "POST"
                 [("username", "alice1"); ("otp", "123456")]]
              eq_refl eq_refl)
    as (pre & post & i & r & _ & _ & Hsplit & _).
  { exists "POST", [("username", "alice1"); ("otp", "123456")].
    cbn. tauto. }
  exists pre, post, i, r. exact Hsplit.
Defined.

Lemma identifier_can_change_while_otp_request_is_out_witness :
  "alice1" <> ""
  /\ USERNAME_REGEX_test "alice1" = true
  /\ "1" <> ""
  /\ exists (w : World) (es : list Effect),
       run [UsernameChange "alice1"; SubmitUsername; UsernameChange "";
            Settle 0 (OtpSettled (inl tt)); OtpChange "1"; SubmitOtp]
         (initial (accounts alice_typed))
       = Some (w, es)
       /\ filter isNetworkCall es
          = [Fetch "/api/auth/loginlink" "POST" [("username", "alice1")];
             Fetch "/api/auth/login" "POST" [("username", ""); ("otp", "1")]].
Proof.
  split; [discriminate|]. split; [reflexivity|]. split; [discriminate|].
  eexists. eexists. split.
  - exact (identifier_can_change_while_otp_request_is_out (accounts alice_typed)
             "alice1" "" "1" ltac:(discriminate) eq_refl ltac:(discriminate)).
  - reflexivity.
Defined.

Lemma login_request_carries_trimmed_passphrase_witness :
  otpAtom alice_waits_for_login <> ""
  /\ exists pre sent post : string,
       otpAtom alice_waits_for_login = (pre ++ sent ++ post)%string
       /\ startsWithWhiteSpace sent = false
       /\ endsWithWhiteSpace sent = false.
Proof.
  split; [discriminate|].
  destruct (login_request_carries_trimmed_passphrase alice_waits_for_login
              ltac:(discriminate))
    as (pre & sent & post & H & _ & _ & Hs & He & _).
  exists pre, sent, post. repeat split; assumption.
Defined.

Lemma clean_passphrase_is_sent_as_typed_witness :
  otpAtom alice_typed_otp <> ""
  /\ startsWithWhiteSpace (otpAtom alice_typed_otp) = false
  /\ endsWithWhiteSpace (otpAtom alice_typed_otp) = false
  /\ snd (exec EnterOtp.continueHandle alice_typed_otp)
     = [PreventDefault; SetLoading true;
        Fetch "/api/auth/login" "POST" [("username", "alice1"); ("otp", "123456")]].
Proof.
  split; [discriminate|]. split; [reflexivity|]. split; [reflexivity|].
  exact (clean_passphrase_is_sent_as_typed alice_typed_otp ltac:(discriminate)
           eq_refl eq_refl).
Defined.

Lemma navigation_target_determines_index_witness :
  exec (EnterOtp.router_push_email 7) alice_typed
  = exec (EnterOtp.router_push_email 7) alice_typed
  /\ 7 = 7.
Proof.
  split; [reflexivity|].
  exact (navigation_target_determines_index alice_typed 7 7 eq_refl).
Defined.

Lemma back_then_new_otp_request_starts_empty_witness :
  stepAtom alice_typed_otp = EnterOtp
  /\ loadingAtom alice_typed_otp = false
  /\ usernameAtom alice_typed_otp <> ""
  /\ USERNAME_REGEX_test (usernameAtom alice_typed_otp) = true
  /\ exists es : list Effect,
       run [Back; SubmitUsername; Settle 0 (OtpSettled (inl tt))] alice_typed_otp
       = Some (alice_on_otp_step, es).
Proof.
  split; [reflexivity|]. split; [reflexivity|]. split; [discriminate|].
  split; [reflexivity|].
  destruct (back_then_new_otp_request_starts_empty alice_typed_otp eq_refl eq_refl
              ltac:(discriminate) eq_refl) as (es & H & _).
  exists es. exact H.
Defined.

Lemma back_does_not_cancel_login_witness :
  stepAtom alice_waits_for_login = EnterOtp
  /\ loadingAtom alice_waits_for_login = true
  /\ nth_error (inflight alice_waits_for_login) 0 = Some LoginChain
  /\ exists (w1 w2 : World) (e1 e2 : list Effect),
       step Back alice_waits_for_login = Some (w1, e1)
       /\ step SubmitUsername w1 = None
       /\ step (Settle 0 (LoginSettled (inl (mkLoginResponse alice)))) w1 = Some (w2, e2)
       /\ filter isNetworkCall e2 = [GenerateAddresses "tok"].
Proof.
  split; [reflexivity|]. split; [reflexivity|]. split; [reflexivity|].
  destruct (back_does_not_cancel_login alice_waits_for_login 0 (mkLoginResponse alice)
              eq_refl eq_refl eq_refl)
    as (w1 & w2 & e1 & e2 & H1 & _ & H2 & H3 & H4 & _).
  exists w1, w2, e1, e2. repeat split; assumption.
Defined.

End MoreScenario.
